(** * Questionnaire application: a shallow embedding of [main.py]

    The application is a FastAPI program over three SQLAlchemy tables
    ([users], [questions], [answers]).  Request handlers are embedded as
    computations in a small state-and-exception monad over a database
    session; the session keeps the committed store, the view of the open
    transaction, the objects added but not yet flushed, and a log of the
    statements it issued.

    Conventions of the embedding:
    - Python [str] is [string], one character per code point below 256;
      Python [int] is [Z]; [int()] refuses literals of more than 4300
      digits.  An [Integer] column holds a signed 64-bit value: binding a
      larger one to a statement raises [OverflowError].
    - A table is the list of its rows in rowid order.  A row inserted
      without an id gets the largest id in use plus one.  The [unique]
      constraint on [users.name] is checked on insert; the foreign keys of
      [answers] are declared but not enforced (the program never switches
      their enforcement on).
    - A relationship attribute is loaded on access: [user.answers] is the
      list of the user's answers, [a.question] the question row or [None].
    - Form values are text fields.
    - A parameter declared [Form(...)] is a required form field: when its
      value is empty the framework answers 422 and does not call the
      function.  A request is given with the field's value. *)

From Stdlib Require Import ZArith List String Ascii Bool Lia.
Import ListNotations.
Local Open Scope string_scope.
Local Open Scope Z_scope.
Local Open Scope list_scope.

(** ** Python string primitives used by the handlers *)

Module Py.

(** [key.startswith(p)] *)
Definition startswith (s p : string) : bool := String.prefix p s.

(** [s.split(sep)] for a one-character separator: the list of segments
    between occurrences of [sep]; never empty. *)
Fixpoint split (sep : ascii) (s : string) : list string :=
  match s with
  | EmptyString => [EmptyString]
  | String c s' =>
      if Ascii.eqb c sep then EmptyString :: split sep s'
      else match split sep s' with
           | [] => [String c EmptyString]
           | seg :: segs => String c seg :: segs
           end
  end.

(** [l[i]]: indexing raises [IndexError] out of range, modelled by [None]. *)
Definition index {A} (l : list A) (i : nat) : option A := nth_error l i.

(** The characters [int] drops around a literal, among code points below
    256: tab to carriage return, the space, and the two non-ASCII spaces
    (next line, no-break space). *)
Definition isspace (c : ascii) : bool :=
  let n := N_of_ascii c in
  ((9 <=? n) && (n <=? 13) || (n =? 32) || (n =? 133) || (n =? 160))%N.

Definition digit_value (c : ascii) : option Z :=
  let n := N_of_ascii c in
  if ((48 <=? n) && (n <=? 57))%N then Some (Z.of_N n - 48) else None.

Fixpoint lstrip (s : string) : string :=
  match s with
  | String c s' => if isspace c then lstrip s' else s
  | EmptyString => EmptyString
  end.

(** Removes trailing whitespace. *)
Fixpoint rstrip (s : string) : string :=
  match s with
  | EmptyString => EmptyString
  | String c s' =>
      match rstrip s' with
      | EmptyString => if isspace c then EmptyString else String c EmptyString
      | r => String c r
      end
  end.

(** Digits of a decimal literal: groups of digits separated by single
    underscores.  [prev] tells whether the previous character was a digit;
    [acc] is the value read so far. *)
Fixpoint digits (s : string) (prev : bool) (acc : Z) : option Z :=
  match s with
  | EmptyString => if prev then Some acc else None
  | String c s' =>
      match digit_value c with
      | Some d => digits s' true (10 * acc + d)
      | None =>
          if Ascii.eqb c "_"%char && prev then
            match s' with
            | EmptyString => None
            | String c' _ =>
                match digit_value c' with
                | Some _ => digits s' false acc
                | None => None
                end
            end
          else None
      end
  end.

(** The number of digits of a literal (underscores do not count). *)
Fixpoint count_digits (s : string) : Z :=
  match s with
  | EmptyString => 0
  | String c s' =>
      match digit_value c with
      | Some _ => 1 + count_digits s'
      | None => count_digits s'
      end
  end.

(** The limit of integer string conversion. *)
Definition max_str_digits : Z := 4300.

(** A decimal literal of at most [max_str_digits] digits. *)
Definition literal (body : string) : option Z :=
  if count_digits body <=? max_str_digits then digits body false 0
  else None.

(** [int(s)] on a string: surrounding whitespace is dropped, an optional
    sign is read, and the rest must be a decimal literal within the digit
    limit.  [None] stands for [ValueError]. *)
Definition int (s : string) : option Z :=
  match rstrip (lstrip s) with
  | String "-" body => option_map Z.opp (literal body)
  | String "+" body => literal body
  | body => literal body
  end.

(** Truth value of an [Optional[str]]: [None] and the empty string are
    false. *)
Definition truthy (o : option string) : bool :=
  match o with
  | None => false
  | Some EmptyString => false
  | Some _ => true
  end.

End Py.

(** ** Form data

    [request.form()] yields a multi-dict built from the body's fields in
    order.  Its mapping view, which [get] and [items] use, is the dict
    [{k: v for k, v in fields}]: one entry per distinct key, at the
    position of the key's first occurrence, holding the key's last value. *)

Definition form_data := list (string * string).

Fixpoint dict_set (d : form_data) (k v : string) : form_data :=
  match d with
  | [] => [(k, v)]
  | (k', v') :: d' =>
      if String.eqb k' k then (k', v) :: d' else (k', v') :: dict_set d' k v
  end.

Definition form_dict (form : form_data) : form_data :=
  fold_left (fun d kv => dict_set d (fst kv) (snd kv)) form [].

(** [form.items()] *)
Definition form_items (form : form_data) : form_data := form_dict form.

(** [form.get(key)] *)
Definition form_get (form : form_data) (key : string) : option string :=
  option_map snd
    (find (fun kv => String.eqb (fst kv) key) (form_dict form)).

(** ** Tables *)

Module User.
Record t := mk { id : Z; name : string }.
End User.

Module Question.
Record t := mk { id : Z; text : string }.
End Question.

Module Answer.
Record t :=
  mk { id : Z; answer_text : string; user_id : Z; question_id : Z }.
End Answer.

Record database := mkDatabase {
  users : list User.t;
  questions : list Question.t;
  answers : list Answer.t
}.

(** The tables as [Base.metadata.create_all] creates them. *)
Definition empty_db : database := mkDatabase [] [] [].

Inductive table := Users | Questions | Answers.

(** The id given to a row inserted without one: one more than the largest
    id in the table, 1 in an empty table (integer primary key, no
    autoincrement clause). *)
Definition next_id (ids : list Z) : Z :=
  match ids with
  | [] => 1
  | i :: rest => fold_left Z.max rest i + 1
  end.

(** The values an [Integer] column takes: signed 64-bit. *)
Definition in_int64 (z : Z) : bool :=
  (-9223372036854775808 <=? z) && (z <=? 9223372036854775807).

(** ** Sessions *)

(** Objects constructed by the handlers and handed to [db.add]. *)
Inductive transient :=
| NewUser (name : string)
| NewQuestion (text : string)
| NewAnswer (user_id question_id : Z) (answer_text : string).

Inductive event :=
| EvSelect (t : table)
| EvInsert (t : table)
| EvDelete (t : table)
| EvCommit.

Inductive exn :=
| ValueError
| IndexError
| AttributeError
| IntegrityError
| InvalidRequestError
| OverflowError.

(** A session: [store] is the committed database, [txn] the database as the
    open transaction sees it, [new] the added objects awaiting a flush
    (with their handles), [pks] the primary keys of flushed objects, and
    [log] the statements issued so far, oldest first. *)
Record session := mkSession {
  store : database;
  txn : database;
  new : list (nat * transient);
  pks : list (nat * Z);
  fresh : nat;
  log : list event
}.

(** [SessionLocal()] *)
Definition open_session (db : database) : session :=
  mkSession db db [] [] 0%nat [].

Inductive outcome (A : Type) :=
| Return (a : A)
| Raise (e : exn).
Arguments Return {A} a.
Arguments Raise {A} e.

Definition M (A : Type) : Type := session -> outcome A * session.

Definition ret {A} (a : A) : M A := fun s => (Return a, s).

Definition bind {A B} (m : M A) (k : A -> M B) : M B :=
  fun s =>
    match m s with
    | (Return a, s') => k a s'
    | (Raise e, s') => (Raise e, s')
    end.

Definition raise {A} (e : exn) : M A := fun s => (Raise e, s).

Declare Scope session_scope.
Delimit Scope session_scope with session.
Notation "x <- m ;; k" := (bind m (fun x => k))
  (at level 61, m at next level, right associativity) : session_scope.
Notation "m ;;; k" := (bind m (fun _ => k))
  (at level 61, right associativity) : session_scope.
Local Open Scope session_scope.

Definition emit (e : event) : M unit :=
  fun s => (Return tt,
            mkSession (store s) (txn s) (new s) (pks s) (fresh s)
                      (log s ++ [e])).

Definition get_txn : M database := fun s => (Return (txn s), s).

Definition set_txn (d : database) : M unit :=
  fun s => (Return tt,
            mkSession (store s) d (new s) (pks s) (fresh s) (log s)).

(** [for x in xs: body(x)] *)
Fixpoint for_each {A} (xs : list A) (body : A -> M unit) : M unit :=
  match xs with
  | [] => ret tt
  | x :: xs' => body x ;;; for_each xs' body
  end.

(** [db.add(obj)]: registers the object and hands back its handle. *)
Definition db_add (obj : transient) : M nat :=
  fun s => (Return (fresh s),
            mkSession (store s) (txn s) (new s ++ [(fresh s, obj)]) (pks s)
                      (S (fresh s)) (log s)).

(** The INSERT of one added object.  The [users.name] column is unique:
    inserting a name already present fails.  The question id of an answer
    comes from the request and is bound as it is: outside the signed
    64-bit range the binding raises [OverflowError] and nothing is
    inserted.  (The user id of an answer is an id read from the users
    table.) *)
Definition insert_row (h : nat) (obj : transient) : M unit :=
  d <- get_txn ;;
  match obj with
  | NewUser name =>
      emit (EvInsert Users) ;;;
      if existsb (fun u => String.eqb (User.name u) name) (users d)
      then raise IntegrityError
      else
        let pk := next_id (map User.id (users d)) in
        set_txn (mkDatabase (users d ++ [User.mk pk name])
                            (questions d) (answers d)) ;;;
        fun s => (Return tt,
                  mkSession (store s) (txn s) (new s) (pks s ++ [(h, pk)])
                            (fresh s) (log s))
  | NewQuestion text =>
      emit (EvInsert Questions) ;;;
      let pk := next_id (map Question.id (questions d)) in
      set_txn (mkDatabase (users d)
                          (questions d ++ [Question.mk pk text])
                          (answers d)) ;;;
      fun s => (Return tt,
                mkSession (store s) (txn s) (new s) (pks s ++ [(h, pk)])
                          (fresh s) (log s))
  | NewAnswer uid qid text =>
      if in_int64 qid then
        emit (EvInsert Answers) ;;;
        let pk := next_id (map Answer.id (answers d)) in
        set_txn (mkDatabase (users d) (questions d)
                            (answers d ++ [Answer.mk pk text uid qid])) ;;;
        fun s => (Return tt,
                  mkSession (store s) (txn s) (new s) (pks s ++ [(h, pk)])
                            (fresh s) (log s))
      else raise OverflowError
  end.

(** The flush: every added object is inserted, in the order of [db.add]. *)
Definition flush : M unit :=
  fun s =>
    for_each (new s) (fun ho => insert_row (fst ho) (snd ho))
      (mkSession (store s) (txn s) [] (pks s) (fresh s) (log s)).

(** [db.commit()]: flush, then make the transaction's view durable. *)
Definition db_commit : M unit :=
  flush ;;;
  emit EvCommit ;;;
  fun s => (Return tt,
            mkSession (txn s) (txn s) (new s) (pks s) (fresh s) (log s)).

(** [db.refresh(user)]: reload the row of a flushed [User] object. *)
Definition db_refresh_User (h : nat) : M User.t :=
  fun s =>
    match find (fun hp => Nat.eqb (fst hp) h) (pks s) with
    | None => (Raise InvalidRequestError, s)
    | Some (_, pk) =>
        (emit (EvSelect Users) ;;;
         match find (fun u => Z.eqb (User.id u) pk) (users (txn s)) with
         | Some u => ret u
         | None => raise InvalidRequestError
         end) s
    end.

(** [db.query(User).filter_by(name=name).first()] *)
Definition query_User_by_name_first (name : string) : M (option User.t) :=
  emit (EvSelect Users) ;;;
  d <- get_txn ;;
  ret (find (fun u => String.eqb (User.name u) name) (users d)).

(** [db.query(User).all()] *)
Definition query_User_all : M (list User.t) :=
  emit (EvSelect Users) ;;;
  d <- get_txn ;;
  ret (users d).

(** [db.query(Question).all()] *)
Definition query_Question_all : M (list Question.t) :=
  emit (EvSelect Questions) ;;;
  d <- get_txn ;;
  ret (questions d).

(** [db.query(Question).delete()] *)
Definition query_Question_delete : M unit :=
  emit (EvDelete Questions) ;;;
  d <- get_txn ;;
  set_txn (mkDatabase (users d) [] (answers d)).

(** [user.answers]: the rows of [answers] whose [user_id] is the user's id. *)
Definition User_answers (u : User.t) : M (list Answer.t) :=
  emit (EvSelect Answers) ;;;
  d <- get_txn ;;
  ret (filter (fun a => Z.eqb (Answer.user_id a) (User.id u)) (answers d)).

(** [a.question]: the row of [questions] with id [a.question_id], [None]
    when there is none. *)
Definition Answer_question (a : Answer.t) : M (option Question.t) :=
  emit (EvSelect Questions) ;;;
  d <- get_txn ;;
  ret (find (fun q => Z.eqb (Question.id q) (Answer.question_id a))
            (questions d)).

(** [[f(x) for x in xs]] *)
Fixpoint comprehension {A B} (xs : list A) (f : A -> M B) : M (list B) :=
  match xs with
  | [] => ret []
  | x :: xs' =>
      y <- f x ;;
      ys <- comprehension xs' f ;;
      ret (y :: ys)
  end.

(** ** Responses *)

Record result_answer := mkResultAnswer {
  ra_question : string;
  ra_answer : string
}.

Record result_entry := mkResultEntry {
  re_name : string;
  re_answers : list result_answer
}.

(** The template context next to the request object. *)
Inductive context :=
| CtxNone
| CtxQuestions (user : string) (questions : list Question.t)
| CtxThankyou (name : string)
| CtxError (error : string)
| CtxResults (results : list result_entry).

Inductive response :=
| TemplateResponse (template : string) (ctx : context)
| RedirectResponse (url : string) (status : Z)
| ValidationErrorResponse.

(** A template response is built without a status argument and carries the
    default, 200; the framework's answer to a request that fails its
    validation carries 422. *)
Definition status_code (r : response) : Z :=
  match r with
  | TemplateResponse _ _ => 200
  | RedirectResponse _ status => status
  | ValidationErrorResponse => 422
  end.

(** ** The seed routine *)

Definition new_questions : list string :=
  [ "What is your email address?";
    "What is your cell-phone number?";
    "What is your date of birth?";
    "What is your occupation?";
    "Who is your employer?";
    "How many years of investment experience do you have?";
    "What are your investment objectives? (e.g. Growth, Income, etc.)";
    "What is your Net Worth?";
    "Do you have any time limitation on your investment goals?";
    "Are you interested in life-insurance as well?" ].

Definition preload_questions : M unit :=
  query_Question_delete ;;;
  db_commit ;;;
  for_each new_questions (fun q => db_add (NewQuestion q) ;;; ret tt) ;;;
  db_commit.

(** ** Routes *)

(** [GET /] *)
Definition read_root : M response :=
  ret (TemplateResponse "index.html" CtxNone).

(** [POST /questions] *)
Definition get_questions (name : string) : M response :=
  found <- query_User_by_name_first name ;;
  user <- match found with
          | Some u => ret u
          | None =>
              h <- db_add (NewUser name) ;;
              db_commit ;;;
              db_refresh_User h
          end ;;
  questions <- query_Question_all ;;
  ret (TemplateResponse "questions.html"
         (CtxQuestions (User.name user) questions)).

(** The body of the loop of [submit_answers] for one form item. *)
Definition submit_item (user : User.t) (kv : string * string) : M unit :=
  let (key, value) := kv in
  if Py.startswith key "question_" then
    match Py.index (Py.split "_" key) 1 with
    | None => raise IndexError
    | Some seg =>
        match Py.int seg with
        | None => raise ValueError
        | Some qid =>
            db_add (NewAnswer (User.id user) qid value) ;;; ret tt
        end
    end
  else ret tt.

(** [POST /submit] *)
Definition submit_answers (form : form_data) : M response :=
  let name := form_get form "name" in
  if negb (Py.truthy name) then ret (RedirectResponse "/" 302)
  else
    let name := match name with Some n => n | None => "" end in
    found <- query_User_by_name_first name ;;
    user <- match found with
            | Some u => ret u
            | None =>
                h <- db_add (NewUser name) ;;
                db_commit ;;;
                db_refresh_User h
            end ;;
    for_each (form_items form) (submit_item user) ;;;
    db_commit ;;;
    ret (TemplateResponse "thankyou.html" (CtxThankyou name)).

(** [GET /results_login] *)
Definition results_login : M response :=
  ret (TemplateResponse "results_login.html" CtxNone).

(** One entry of the inner comprehension of [view_results]:
    [a.question.text] fails when [a.question] is [None]. *)
Definition answer_record (a : Answer.t) : M result_answer :=
  q <- Answer_question a ;;
  match q with
  | None => raise AttributeError
  | Some q => ret (mkResultAnswer (Question.text q) (Answer.answer_text a))
  end.

Definition user_record (user : User.t) : M result_entry :=
  rows <- User_answers user ;;
  answers <- comprehension rows answer_record ;;
  ret (mkResultEntry (User.name user) answers).

(** [POST /results] *)
Definition view_results (code : string) : M response :=
  if negb (String.eqb code "072823") then
    ret (TemplateResponse "results_login.html" (CtxError "Invalid code."))
  else
    users <- query_User_all ;;
    data <- comprehension users user_record ;;
    ret (TemplateResponse "results.html" (CtxResults data)).

(** ** Serving a request *)

Inductive request :=
| GetRoot
| PostQuestions (name : string)
| PostSubmit (form : form_data)
| GetResultsLogin
| PostResults (code : string).

(** A parameter [x: str = Form(...)]: the function is called with the
    field's value unless the value is empty, which the framework answers
    itself, as it answers a missing field. *)
Definition required_form (value : string) (f : string -> M response)
  : M response :=
  match value with
  | EmptyString => ret ValidationErrorResponse
  | _ => f value
  end.

Definition handler (r : request) : M response :=
  match r with
  | GetRoot => read_root
  | PostQuestions name => required_form name get_questions
  | PostSubmit form => submit_answers form
  | GetResultsLogin => results_login
  | PostResults code => required_form code view_results
  end.

(** What running a computation in a session of its own leaves behind: the
    outcome, the committed database once the session is closed (uncommitted
    work is dropped), and the session's log. *)
Record served (A : Type) := mkServed {
  result : outcome A;
  db_after : database;
  trace : list event
}.
Arguments mkServed {A}.
Arguments result {A}.
Arguments db_after {A}.
Arguments trace {A}.

(** [db = SessionLocal(); try: ... finally: db.close()] *)
Definition in_session {A} (m : M A) (db : database) : served A :=
  let (r, s) := m (open_session db) in
  mkServed r (store s) (log s).

Definition serve (r : request) (db : database) : served response :=
  in_session (handler r) db.

(** The database after a sequence of requests served one after the other. *)
Definition serve_all (rs : list request) (db : database) : database :=
  fold_left (fun d r => db_after (serve r d)) rs db.

(** Process start: [with SessionLocal() as db: preload_questions(db)] *)
Definition startup (db : database) : served unit :=
  in_session preload_questions db.

(** ** Reading the tables and the log *)

Definition commits (l : list event) : nat :=
  List.length (filter (fun e => match e with EvCommit => true | _ => false end) l).

Definition is_question_key (kv : string * string) : bool :=
  Py.startswith (fst kv) "question_".

Definition count_users_named (n : string) (d : database) : nat :=
  List.length (filter (fun u => String.eqb (User.name u) n) (users d)).

(** The id segment of a form key, [key.split("_")[1]], and its parse. *)
Definition item_segment (kv : string * string) : option string :=
  Py.index (Py.split "_" (fst kv)) 1.

Definition item_qid (kv : string * string) : option Z :=
  match item_segment kv with
  | Some seg => Py.int seg
  | None => None
  end.

Definition lookup_user (name : string) (d : database) : option User.t :=
  find (fun u => String.eqb (User.name u) name) (users d).

(** Find-or-create on the tables: the user the handlers end up with and the
    database they leave. *)
Definition ensure_user (name : string) (d : database) : User.t * database :=
  match lookup_user name d with
  | Some u => (u, d)
  | None =>
      let u := User.mk (next_id (map User.id (users d))) name in
      (u, mkDatabase (users d ++ [u]) (questions d) (answers d))
  end.

(** The session once the handlers hold their user. *)
Definition session_with_user (name : string) (d : database) : session :=
  match lookup_user name d with
  | Some u => mkSession d d [] [] 0%nat [EvSelect Users]
  | None =>
      let d' := snd (ensure_user name d) in
      mkSession d' d' [] [(0%nat, next_id (map User.id (users d)))] 1%nat
        [EvSelect Users; EvInsert Users; EvCommit; EvSelect Users]
  end.

(** Appending answer rows one by one, each with the next free id. *)
Definition append_answer (tbl : list Answer.t) (uid qid : Z) (text : string)
  : list Answer.t :=
  tbl ++ [Answer.mk (next_id (map Answer.id tbl)) text uid qid].

Fixpoint insert_objects (objs : list transient) (d : database) : database :=
  match objs with
  | NewAnswer uid qid text :: rest =>
      insert_objects rest
        (mkDatabase (users d) (questions d)
                    (append_answer (answers d) uid qid text))
  | NewQuestion text :: rest =>
      insert_objects rest
        (mkDatabase (users d)
           (questions d
            ++ [Question.mk (next_id (map Question.id (questions d))) text])
           (answers d))
  | _ => d
  end.

(** Added objects with their handles, counted from [start]. *)
Definition numbered (start : nat) (objs : list transient)
  : list (nat * transient) :=
  combine (seq start (List.length objs)) objs.

(** The answer objects a form gives rise to for a user id, while every
    question key parses. *)
Fixpoint form_answers (uid : Z) (items : form_data) : list transient :=
  match items with
  | [] => []
  | kv :: rest =>
      if is_question_key kv then
        match item_qid kv with
        | Some qid => NewAnswer uid qid (snd kv) :: form_answers uid rest
        | None => []
        end
      else form_answers uid rest
  end.

Definition all_parse (items : form_data) : Prop :=
  forall kv, In kv items -> is_question_key kv = true -> item_qid kv <> None.

(** The objects the handlers insert after the user: questions, and answers
    whose question id fits the [Integer] column. *)
Definition storable (o : transient) : Prop :=
  match o with
  | NewUser _ => False
  | NewQuestion _ => True
  | NewAnswer _ qid _ => in_int64 qid = true
  end.

(** Every parsed question id of the items fits the [Integer] column. *)
Definition all_storable (items : form_data) : Prop :=
  forall kv qid, In kv items -> is_question_key kv = true ->
                 item_qid kv = Some qid -> in_int64 qid = true.

(** The field [kv] is the last field of the form with its key. *)
Definition last_field (form : form_data) (kv : string * string) : Prop :=
  exists before after,
    form = before ++ kv :: after /\ ~ In (fst kv) (map fst after).

(** A numeric id: a non-empty string of decimal digits. *)
Fixpoint all_digits (s : string) : bool :=
  match s with
  | EmptyString => true
  | String c s' =>
      match Py.digit_value c with
      | Some _ => all_digits s'
      | None => false
      end
  end.

Definition numeric (s : string) : Prop :=
  s <> EmptyString /\ all_digits s = true.

Fixpoint decimal (s : string) (acc : Z) : Z :=
  match s with
  | EmptyString => acc
  | String c s' =>
      match Py.digit_value c with
      | Some d => decimal s' (10 * acc + d)
      | None => acc
      end
  end.

(** What the results view shows: the question an answer points at, the
    answers of a user, and the entries built from them. *)
Definition question_of (d : database) (a : Answer.t) : option Question.t :=
  find (fun q => Question.id q =? Answer.question_id a) (questions d).

Definition answers_of (d : database) (u : User.t) : list Answer.t :=
  filter (fun a => Answer.user_id a =? User.id u) (answers d).

Definition shows (d : database) (a : Answer.t) (y : result_answer) : Prop :=
  exists q, question_of d a = Some q
            /\ y = mkResultAnswer (Question.text q) (Answer.answer_text a).

Definition entry_for (d : database) (u : User.t) (e : result_entry) : Prop :=
  re_name e = User.name u
  /\ Forall2 (shows d) (answers_of d u) (re_answers e).

(** No answer points at a missing question. *)
Definition questions_resolve (d : database) : Prop :=
  forall a, In a (answers d) -> question_of d a <> None.

(** A session after further statements. *)
Definition logged (s : session) (l : list event) : session :=
  mkSession (store s) (txn s) (new s) (pks s) (fresh s) (log s ++ l).

(** A computation that only reads: it keeps the tables, relates what it
    returns to its input by [R], and returns when [ok] holds. *)
Definition reads {A B : Type} (R : database -> A -> B -> Prop)
           (ok : database -> A -> Prop) (x : A) (m : M B) : Prop :=
  forall s,
    store (snd (m s)) = store s /\ txn (snd (m s)) = txn s
    /\ (forall y, fst (m s) = Return y -> R (txn s) x y)
    /\ (ok (txn s) x -> exists y, fst (m s) = Return y).

(** [d'] is [d] with users and answers appended, every appended answer
    carrying the id of a user of [d']. *)
Definition extends (d d' : database) : Prop :=
  (exists us, users d' = users d ++ us)
  /\ questions d' = questions d
  /\ (exists rows,
        answers d' = answers d ++ rows
        /\ forall a, In a rows ->
                     In (Answer.user_id a) (map User.id (users d'))).

(** The invariants of the tables. *)
Definition names_unique (d : database) : Prop :=
  NoDup (map User.name (users d)).

Definition answers_owned (d : database) : Prop :=
  forall a, In a (answers d) ->
            In (Answer.user_id a) (map User.id (users d)).

Definition question_exists (qid : Z) (d : database) : Prop :=
  In qid (map Question.id (questions d)).

(** The seeded table. *)
Definition seeded_questions : list Question.t :=
  [ Question.mk 1 "What is your email address?";
    Question.mk 2 "What is your cell-phone number?";
    Question.mk 3 "What is your date of birth?";
    Question.mk 4 "What is your occupation?";
    Question.mk 5 "Who is your employer?";
    Question.mk 6 "How many years of investment experience do you have?";
    Question.mk 7
      "What are your investment objectives? (e.g. Growth, Income, etc.)";
    Question.mk 8 "What is your Net Worth?";
    Question.mk 9 "Do you have any time limitation on your investment goals?";
    Question.mk 10 "Are you interested in life-insurance as well?" ].

(** Primary keys are pairwise distinct in each table. *)
Definition ids_unique (d : database) : Prop :=
  NoDup (map User.id (users d))
  /\ NoDup (map Question.id (questions d))
  /\ NoDup (map Answer.id (answers d)).

(** Every answer of every listed user points at a question of the table:
    what the results view needs of the answers it walks through. *)
Definition listed_resolve (d : database) : Prop :=
  forall u a, In u (users d) -> In a (answers_of d u) ->
              question_of d a <> None.

Definition is_select (e : event) : bool :=
  match e with
  | EvSelect _ => true
  | _ => false
  end.

(** A request that only names existing questions: every question key of a
    submitted form parses to the id of a question of [d]. *)
Definition addresses_existing (d : database) (r : request) : Prop :=
  match r with
  | PostSubmit form =>
      forall kv qid, In kv (form_items form) -> is_question_key kv = true ->
                     item_qid kv = Some qid -> question_exists qid d
  | _ => True
  end.

(** The databases the program can be in: the created tables, and what the
    seed routine and the handlers make of a database it can be in. *)
Inductive reachable : database -> Prop :=
| reach_created : reachable empty_db
| reach_startup d : reachable d -> reachable (db_after (startup d))
| reach_serve d r : reachable d -> reachable (db_after (serve r d)).

(** * Sanity checks of the embedding *)

Example split_question_5 :
  Py.split "_" "question_5" = ["question"; "5"].
Proof. reflexivity. Qed.

Example split_question_5_extra :
  Py.split "_" "question_5_extra" = ["question"; "5"; "extra"].
Proof. reflexivity. Qed.

Example int_examples :
  Py.int "12" = Some 12 /\ Py.int "007" = Some 7 /\ Py.int " -3 " = Some (-3)
  /\ Py.int "abc" = None /\ Py.int "" = None /\ Py.int "1_0" = Some 10
  /\ Py.int "1__0" = None /\ Py.int "_1" = None /\ Py.int "1_" = None
  /\ Py.int "+" = None /\ Py.int "1 2" = None.
Proof. repeat split; reflexivity. Qed.

Example int_digit_limit :
  Py.int (String.concat "" (repeat "1" 4300)) <> None
  /\ Py.int (String.concat "" (repeat "1" 4301)) = None.
Proof. split; [vm_compute; discriminate | vm_compute; reflexivity]. Qed.

Example answer_id_range :
  result (serve (PostSubmit [("name", "a");
                             ("question_9223372036854775807", "x")])
            empty_db)
  = Return (TemplateResponse "thankyou.html" (CtxThankyou "a"))
  /\ result (serve (PostSubmit [("name", "a");
                                ("question_9223372036854775808", "x")])
               empty_db)
     = Raise OverflowError
  /\ result (serve (PostSubmit [("name", "a");
                                ("question_-9223372036854775809", "x")])
               empty_db)
     = Raise OverflowError.
Proof. repeat split; vm_compute; reflexivity. Qed.

Example required_field_empty :
  serve (PostQuestions "") empty_db
  = mkServed (Return ValidationErrorResponse) empty_db []
  /\ serve (PostResults "") empty_db
     = mkServed (Return ValidationErrorResponse) empty_db []
  /\ status_code ValidationErrorResponse = 422.
Proof. repeat split. Qed.

Example form_items_duplicates :
  form_items [("name", "a"); ("question_1", "x"); ("name", "b");
              ("question_1", "y")]
  = [("name", "b"); ("question_1", "y")].
Proof. reflexivity. Qed.

Example seeded_texts : map Question.text seeded_questions = new_questions.
Proof. reflexivity. Qed.

(** The scenario of the specification: Alice answers two questions and the
    operator reads them back. *)
Example scenario_alice :
  let db0 := db_after (startup empty_db) in
  let db1 :=
    serve_all
      [PostQuestions "Alice";
       PostSubmit [("name", "Alice"); ("question_1", "foo");
                   ("question_2", "bar")]] db0 in
  result (serve (PostResults "072823") db1)
  = Return (TemplateResponse "results.html"
      (CtxResults
         [mkResultEntry "Alice"
            [mkResultAnswer "What is your email address?" "foo";
             mkResultAnswer "What is your cell-phone number?" "bar"]])).
Proof. vm_compute. reflexivity. Qed.

(** * The seed routine *)

Lemma startup_run (db : database) :
  startup db =
  mkServed (Return tt)
    (mkDatabase (users db) seeded_questions (answers db))
    ([EvDelete Questions; EvCommit]
       ++ repeat (EvInsert Questions) 10 ++ [EvCommit]).
Proof. destruct db as [us qs ans]. reflexivity. Qed.

(** C3, as stated, fails: the routine does not commit once.  On the empty
    database its log holds two commits. *)
Lemma preload_questions_not_one_commit :
  ~ (commits (trace (startup empty_db)) = 1%nat
     /\ questions (db_after (startup empty_db)) = seeded_questions).
Proof. intros [H _]. vm_compute in H. discriminate H. Qed.

(** C3 (amended): whatever the tables hold, the seed routine returns; it
    deletes the questions and commits, then inserts the ten prompts in
    order and commits a second time; afterwards the questions table is
    exactly the ten prompts in the listed order, and the other tables are
    untouched. *)
Theorem preload_questions_reseeds (db : database) :
  result (startup db) = Return tt
  /\ trace (startup db)
     = [EvDelete Questions; EvCommit]
         ++ repeat (EvInsert Questions) (List.length new_questions)
         ++ [EvCommit]
  /\ commits (trace (startup db)) = 2%nat
  /\ questions (db_after (startup db)) = seeded_questions
  /\ map Question.text (questions (db_after (startup db))) = new_questions
  /\ List.length (questions (db_after (startup db))) = 10%nat
  /\ users (db_after (startup db)) = users db
  /\ answers (db_after (startup db)) = answers db.
Proof. rewrite startup_run. repeat split. Qed.

(** * Auxiliary facts on ids and lookups *)

Lemma fold_max_ge (l : list Z) (i : Z) :
  i <= fold_left Z.max l i /\ (forall j, In j l -> j <= fold_left Z.max l i).
Proof.
  revert i. induction l as [|x l IH]; intros i; simpl.
  - split; [lia | intros j []].
  - destruct (IH (Z.max i x)) as [H1 H2]. split; [lia|].
    intros j [<-|Hj]; [lia | auto].
Qed.

Lemma next_id_above (ids : list Z) (i : Z) : In i ids -> i < next_id ids.
Proof.
  destruct ids as [|x l]; [intros []|]. unfold next_id.
  destruct (fold_max_ge l x) as [H1 H2].
  intros [<-|Hi]; [lia | specialize (H2 _ Hi); lia].
Qed.

Lemma next_id_fresh (ids : list Z) : ~ In (next_id ids) ids.
Proof. intros H. apply next_id_above in H. lia. Qed.

Lemma find_none_existsb {A} (p : A -> bool) (l : list A) :
  find p l = None -> existsb p l = false.
Proof.
  induction l as [|x l IH]; simpl; [reflexivity|].
  destruct (p x); [discriminate | exact IH].
Qed.

Lemma find_app_last {A} (p : A -> bool) (l : list A) (x : A) :
  (forall y, In y l -> p y = false) -> p x = true ->
  find p (l ++ [x]) = Some x.
Proof.
  intros Hl Hx. induction l as [|y l IH]; simpl.
  - now rewrite Hx.
  - rewrite (Hl y (or_introl eq_refl)). apply IH.
    intros z Hz. apply Hl. now right.
Qed.

Lemma find_new_user (us : list User.t) (name : string) :
  let pk := next_id (map User.id us) in
  find (fun u => User.id u =? pk) (us ++ [User.mk pk name])
  = Some (User.mk pk name).
Proof.
  intros pk. apply find_app_last.
  - intros y Hy. apply Z.eqb_neq. intros E.
    apply (next_id_fresh (map User.id us)). fold pk. rewrite <- E.
    now apply in_map.
  - simpl. apply Z.eqb_refl.
Qed.

(** * Running session computations *)

Ltac unfold_session :=
  unfold bind, ret, raise, emit, get_txn, set_txn, db_add, db_commit, flush,
    insert_row, db_refresh_User, query_User_by_name_first, query_User_all,
    query_Question_all, query_Question_delete, User_answers, Answer_question.

Ltac run := repeat (progress (unfold_session; cbn)).

(** * Find-or-create, as both handlers spell it out *)

Lemma find_or_create_run {B} (name : string) (k : User.t -> M B)
      (db : database) :
  (found <- query_User_by_name_first name ;;
   user <- match found with
           | Some u => ret u
           | None =>
               h <- db_add (NewUser name) ;;
               db_commit ;;;
               db_refresh_User h
           end ;;
   k user) (open_session db)
  = k (fst (ensure_user name db)) (session_with_user name db).
Proof.
  unfold session_with_user, ensure_user, lookup_user.
  unfold bind at 1. cbn.
  destruct (find _ (users db)) as [u|] eqn:Hf.
  - destruct db; reflexivity.
  - run. rewrite (find_none_existsb _ _ Hf). run.
    rewrite find_new_user. destruct db; reflexivity.
Qed.

Lemma ensure_user_named (name : string) (db : database) :
  User.name (fst (ensure_user name db)) = name.
Proof.
  unfold ensure_user, lookup_user.
  destruct (find _ _) as [u|] eqn:Hf; simpl; [|reflexivity].
  apply find_some in Hf. now apply String.eqb_eq.
Qed.

Lemma ensure_user_in (name : string) (db : database) :
  In (fst (ensure_user name db)) (users (snd (ensure_user name db))).
Proof.
  unfold ensure_user, lookup_user.
  destruct (find _ _) as [u|] eqn:Hf; simpl.
  - now apply find_some in Hf.
  - apply in_or_app. right. now left.
Qed.

Lemma lookup_ensure_user (name : string) (db : database) :
  lookup_user name (snd (ensure_user name db))
  = Some (fst (ensure_user name db)).
Proof.
  unfold ensure_user, lookup_user.
  destruct (find _ (users db)) as [u|] eqn:Hf; simpl; [exact Hf|].
  apply find_app_last.
  - intros y Hy. destruct (String.eqb (User.name y) name) eqn:E; auto.
    now rewrite (find_none _ _ Hf y Hy) in E.
  - apply String.eqb_refl.
Qed.

Lemma session_with_user_tables (name : string) (db : database) :
  store (session_with_user name db) = snd (ensure_user name db)
  /\ txn (session_with_user name db) = snd (ensure_user name db)
  /\ new (session_with_user name db) = [].
Proof.
  unfold session_with_user, ensure_user.
  destruct (lookup_user name db); repeat split.
Qed.

(** * The questions handler *)

Lemma required_form_value (value : string) (f : string -> M response) :
  value <> EmptyString -> required_form value f = f value.
Proof. destruct value; [contradiction | reflexivity]. Qed.

(** The function [get_questions], run in a session of its own. *)
Lemma get_questions_function_run (name : string) (db : database) :
  result (in_session (get_questions name) db)
  = Return (TemplateResponse "questions.html"
              (CtxQuestions name (questions db)))
  /\ db_after (in_session (get_questions name) db)
     = snd (ensure_user name db)
  /\ trace (in_session (get_questions name) db)
     = log (session_with_user name db) ++ [EvSelect Questions].
Proof.
  unfold in_session, get_questions.
  rewrite find_or_create_run.
  pose proof (ensure_user_named name db) as Hn.
  unfold session_with_user, ensure_user in *.
  destruct (lookup_user name db) as [u|]; run; cbn in Hn; rewrite ?Hn;
    repeat split; reflexivity.
Qed.

Lemma get_questions_run (name : string) (db : database) :
  name <> EmptyString ->
  result (serve (PostQuestions name) db)
  = Return (TemplateResponse "questions.html"
              (CtxQuestions name (questions db)))
  /\ db_after (serve (PostQuestions name) db) = snd (ensure_user name db)
  /\ trace (serve (PostQuestions name) db)
     = log (session_with_user name db) ++ [EvSelect Questions].
Proof.
  intros Hne. unfold serve, handler. rewrite (required_form_value _ _ Hne).
  apply get_questions_function_run.
Qed.

(** An empty required field: the framework's 422, the function not run. *)
Lemma questions_empty_name (db : database) :
  serve (PostQuestions EmptyString) db
  = mkServed (Return ValidationErrorResponse) db [].
Proof. reflexivity. Qed.

Lemma results_empty_code (db : database) :
  serve (PostResults EmptyString) db
  = mkServed (Return ValidationErrorResponse) db [].
Proof. reflexivity. Qed.

Lemma questions_db_after (name : string) (db : database) :
  db_after (serve (PostQuestions name) db) = db
  \/ db_after (serve (PostQuestions name) db) = snd (ensure_user name db).
Proof.
  destruct name as [|c name]; [left; reflexivity|]. right.
  apply get_questions_run. discriminate.
Qed.

Lemma NoDup_snoc {A} (l : list A) (x : A) :
  NoDup l -> ~ In x l -> NoDup (l ++ [x]).
Proof.
  induction l as [|y l IH]; simpl; intros Hnd Hx.
  - constructor; [intros [] | constructor].
  - inversion Hnd as [|z l' Hy Hnd' E]; subst. constructor.
    + intros Hin. apply in_app_or in Hin. destruct Hin as [Hin|[E|[]]].
      * contradiction.
      * subst. apply Hx. now left.
    + apply IH; [exact Hnd'|]. intros Hin. apply Hx. now right.
Qed.

Lemma filter_named_nil (n : string) (us : list User.t) :
  ~ In n (map User.name us) ->
  filter (fun u => String.eqb (User.name u) n) us = [].
Proof.
  induction us as [|u us IH]; simpl; [reflexivity|]. intros H.
  destruct (String.eqb_spec (User.name u) n) as [E|E].
  - exfalso. apply H. now left.
  - apply IH. intros Hin. apply H. now right.
Qed.

Lemma count_named_unique (n : string) (us : list User.t) :
  NoDup (map User.name us) -> In n (map User.name us) ->
  List.length (filter (fun u => String.eqb (User.name u) n) us) = 1%nat.
Proof.
  induction us as [|u us IH]; simpl; [intros _ []|].
  intros Hnd Hin. inversion Hnd as [|x l Hx Hnd' Ex]; subst.
  destruct (String.eqb_spec (User.name u) n) as [E|E].
  - subst n. simpl. now rewrite filter_named_nil.
  - destruct Hin as [Hin|Hin]; [contradiction | now apply IH].
Qed.

Lemma lookup_user_none (n : string) (db : database) :
  lookup_user n db = None -> ~ In n (map User.name (users db)).
Proof.
  unfold lookup_user. intros Hf Hin. apply in_map_iff in Hin.
  destruct Hin as (u & Hu & Hin). pose proof (find_none _ _ Hf u Hin) as E.
  simpl in E. rewrite Hu, String.eqb_refl in E. discriminate.
Qed.

Lemma lookup_user_some (n : string) (db : database) (u : User.t) :
  lookup_user n db = Some u -> In u (users db) /\ User.name u = n.
Proof.
  unfold lookup_user. intros Hf. apply find_some in Hf.
  destruct Hf as [Hin E]. split; [exact Hin | now apply String.eqb_eq].
Qed.

Lemma ensure_user_names_unique (n : string) (db : database) :
  names_unique db -> names_unique (snd (ensure_user n db)).
Proof.
  unfold names_unique, ensure_user. intros Hnd.
  destruct (lookup_user n db) as [u|] eqn:Hf; simpl; [exact Hnd|].
  rewrite map_app. simpl. apply NoDup_snoc; [exact Hnd|].
  now apply lookup_user_none.
Qed.

(** C4, as stated, fails at the empty name: the required form field makes
    the route answer 422 without running [get_questions], so two requests
    with the empty name leave no user of that name. *)
Lemma get_questions_twice_empty_name_no_user :
  ~ (count_users_named EmptyString
       (db_after (serve (PostQuestions EmptyString)
                    (db_after (serve (PostQuestions EmptyString) empty_db))))
     = 1%nat).
Proof. vm_compute. discriminate. Qed.

(** C4 (amended): with unique user names, two successive [POST /questions]
    for a non-empty name [n] both render the questionnaire and leave
    exactly one user named [n]; the first call appends the row when no
    user has the name and changes nothing otherwise, the second finds the
    row, inserts nothing and leaves the database as the first left it.
    For the empty name the route answers 422 and the tables are left as
    they are. *)
Theorem get_questions_twice_one_user (n : string) (db : database) :
  n <> EmptyString ->
  names_unique db ->
  let first := serve (PostQuestions n) db in
  let second := serve (PostQuestions n) (db_after first) in
  result first
  = Return (TemplateResponse "questions.html"
              (CtxQuestions n (questions db)))
  /\ result second
     = Return (TemplateResponse "questions.html"
                 (CtxQuestions n (questions db)))
  /\ count_users_named n (db_after second) = 1%nat
  /\ (lookup_user n db = None ->
      db_after first
      = mkDatabase
          (users db ++ [User.mk (next_id (map User.id (users db))) n])
          (questions db) (answers db))
  /\ (lookup_user n db <> None -> db_after first = db)
  /\ db_after second = db_after first
  /\ trace second = [EvSelect Users; EvSelect Questions]
  /\ serve (PostQuestions EmptyString) db
     = mkServed (Return ValidationErrorResponse) db [].
Proof.
  intros Hne Hu first second. subst first second.
  destruct (get_questions_run n db Hne) as (R1 & D1 & _).
  destruct (get_questions_run n (db_after (serve (PostQuestions n) db)) Hne)
    as (R2 & D2 & T2).
  rewrite D1 in *.
  pose proof (lookup_ensure_user n db) as Hl.
  assert (E2 : snd (ensure_user n (snd (ensure_user n db)))
               = snd (ensure_user n db)).
  { unfold ensure_user at 1. now rewrite Hl. }
  assert (Q : questions (snd (ensure_user n db)) = questions db).
  { unfold ensure_user. now destruct (lookup_user n db). }
  rewrite E2 in D2. rewrite Q in R2.
  split; [exact R1|]. split; [exact R2|]. split.
  { rewrite D2. unfold count_users_named.
    apply count_named_unique.
    - now apply ensure_user_names_unique.
    - apply lookup_user_some in Hl. destruct Hl as [Hin Hn].
      apply in_map_iff. eexists. split; [exact Hn | exact Hin]. }
  split.
  { intros Hnone. unfold ensure_user. now rewrite Hnone. }
  split.
  { intros Hsome. unfold ensure_user.
    destruct (lookup_user n db); [reflexivity | contradiction]. }
  split; [exact D2|]. split; [|apply questions_empty_name].
  rewrite T2. unfold session_with_user. now rewrite Hl.
Qed.

Lemma get_questions_twice_one_user_witness :
  let db := mkDatabase [User.mk 1 "Alice"] seeded_questions [] in
  "Bob" <> EmptyString
  /\ names_unique db
  /\ count_users_named "Bob"
       (db_after (serve (PostQuestions "Bob")
                    (db_after (serve (PostQuestions "Bob") db)))) = 1%nat
  /\ count_users_named "Alice"
       (db_after (serve (PostQuestions "Alice")
                    (db_after (serve (PostQuestions "Alice") db)))) = 1%nat.
Proof.
  intros db.
  assert (H0 : "Bob" <> EmptyString) by discriminate.
  assert (H0' : "Alice" <> EmptyString) by discriminate.
  assert (H : names_unique db).
  { unfold names_unique. simpl. constructor; [intros [] | constructor]. }
  split; [exact H0|]. split; [exact H|]. split.
  - exact (proj1 (proj2 (proj2
             (get_questions_twice_one_user "Bob" db H0 H)))).
  - exact (proj1 (proj2 (proj2
             (get_questions_twice_one_user "Alice" db H0' H)))).
Defined.

(** * Form keys *)

Lemma startswith_app (p s : string) :
  Py.startswith s p = true -> exists rest, s = (p ++ rest)%string.
Proof.
  unfold Py.startswith. revert s.
  induction p as [|c p IH]; intros s H; simpl in *.
  - now exists s.
  - destruct s as [|c' s]; [discriminate|].
    change (prefix (String c p) (String c' s))
      with (if Ascii.ascii_dec c c' then prefix p s else false) in H.
    destruct (Ascii.ascii_dec c c') as [->|N]; [|discriminate].
    destruct (IH s H) as [rest ->]. now exists rest.
Qed.

Lemma split_nonempty (sep : ascii) (s : string) : Py.split sep s <> [].
Proof.
  induction s as [|c s IH]; simpl; [discriminate|].
  destruct (Ascii.eqb c sep); [discriminate|].
  destruct (Py.split sep s); [contradiction | discriminate].
Qed.

Lemma question_key_segment (kv : string * string) :
  is_question_key kv = true ->
  exists rest, fst kv = ("question_" ++ rest)%string
               /\ item_segment kv = Some (hd EmptyString (Py.split "_" rest)).
Proof.
  unfold is_question_key, item_segment. intros H.
  destruct (startswith_app _ _ H) as [rest E]. exists rest.
  split; [exact E|]. rewrite E. simpl.
  pose proof (split_nonempty "_" rest) as Hne.
  destruct (Py.split "_" rest); [contradiction | reflexivity].
Qed.

(** * The loop of the submit handler *)

Lemma submit_loop_ok (user : User.t) (items : form_data) (s : session) :
  all_parse items ->
  for_each items (submit_item user) s
  = (Return tt,
     mkSession (store s) (txn s)
       (new s ++ numbered (fresh s) (form_answers (User.id user) items))
       (pks s)
       (fresh s + List.length (form_answers (User.id user) items))%nat
       (log s)).
Proof.
  revert s. induction items as [|kv items IH]; intros s Hall.
  - destruct s; cbn. now rewrite app_nil_r, Nat.add_0_r.
  - assert (Hall' : all_parse items).
    { intros kv' Hin. apply Hall. now right. }
    cbn [for_each form_answers]. unfold bind at 1.
    specialize (Hall kv (or_introl eq_refl)).
    unfold submit_item. destruct kv as [key value].
    unfold is_question_key in *. cbn [fst snd] in *.
    destruct (Py.startswith key "question_") eqn:Hk.
    + specialize (Hall eq_refl). unfold item_qid, item_segment in *.
      cbn [fst] in *.
      destruct (Py.index (Py.split "_" key) 1) as [seg|]; [|contradiction].
      destruct (Py.int seg) as [qid|]; [|contradiction].
      run. rewrite IH by exact Hall'. cbn. unfold numbered. cbn.
      rewrite <- app_assoc. cbn. f_equal. f_equal. lia.
    + run. now rewrite IH.
Qed.

Lemma submit_loop_frame (user : User.t) (items : form_data) (s : session) :
  store (snd (for_each items (submit_item user) s)) = store s
  /\ txn (snd (for_each items (submit_item user) s)) = txn s.
Proof.
  revert s. induction items as [|kv items IH]; intros s; [now split|].
  cbn [for_each]. unfold bind.
  destruct (submit_item user kv s) as [[[]|e] s1] eqn:E.
  - destruct (IH s1) as [H1 H2]. rewrite H1, H2.
    unfold submit_item in E. destruct kv as [key value].
    destruct (Py.startswith key "question_").
    + destruct (Py.index _ _) as [seg|]; [|discriminate].
      destruct (Py.int seg); [|discriminate].
      revert E. run. intros E. injection E as <-. now split.
    + injection E as <-. now split.
  - unfold submit_item in E. destruct kv as [key value]. cbn.
    destruct (Py.startswith key "question_").
    + destruct (Py.index _ _) as [seg|].
      * destruct (Py.int seg); revert E; run; intros E;
          [discriminate | injection E as _ <-; now split].
      * injection E as _ <-. now split.
    + discriminate.
Qed.

Lemma submit_loop_raises (user : User.t) (items : form_data) (s : session)
      (kv : string * string) :
  In kv items -> is_question_key kv = true -> item_qid kv = None ->
  fst (for_each items (submit_item user) s) = Raise ValueError.
Proof.
  revert s. induction items as [|kv' items IH]; intros s Hin Hk Hq;
    [destruct Hin|].
  cbn [for_each]. unfold bind at 1.
  destruct (submit_item user kv' s) as [[[]|e] s1] eqn:E.
  - destruct Hin as [->|Hin]; [|now apply IH].
    exfalso. unfold submit_item in E. destruct kv as [key value].
    unfold is_question_key, item_qid, item_segment in *. cbn [fst] in *.
    rewrite Hk in E.
    destruct (Py.index _ _) as [seg|]; [|discriminate].
    rewrite Hq in E. discriminate.
  - cbn. unfold submit_item in E. destruct kv' as [key value].
    destruct (Py.startswith key "question_") eqn:Hk'; [|discriminate].
    destruct (question_key_segment (key, value) Hk') as (rest & _ & Hs).
    unfold item_segment in Hs. cbn [fst] in Hs. rewrite Hs in E.
    destruct (Py.int _); [|now injection E as <-].
    revert E. run. discriminate.
Qed.

(** * Flushing added answers and questions *)

Lemma numbered_objects (start : nat) (objs : list transient) :
  map snd (numbered start objs) = objs.
Proof.
  unfold numbered. revert start.
  induction objs as [|o objs IH]; intros start; cbn; [reflexivity|].
  now rewrite IH.
Qed.

Lemma insert_rows_run (l : list (nat * transient)) (s : session) :
  Forall (fun ho => storable (snd ho)) l ->
  exists s',
    for_each l (fun ho => insert_row (fst ho) (snd ho)) s = (Return tt, s')
    /\ store s' = store s
    /\ txn s' = insert_objects (map snd l) (txn s)
    /\ new s' = new s.
Proof.
  revert s. induction l as [|[h o] l IH]; intros s Hall.
  - exists s. now repeat split.
  - inversion Hall as [|x l' Ho Hall' E]; subst. cbn [fst snd] in Ho.
    cbn [for_each map snd fst]. unfold bind at 1.
    destruct o as [n|text|uid qid text]; [destruct Ho| |].
    + run.
      edestruct (IH (mkSession (store s)
                       (mkDatabase (users (txn s))
                          (questions (txn s)
                           ++ [Question.mk
                                 (next_id (map Question.id (questions (txn s))))
                                 text])
                          (answers (txn s)))
                       (new s) (pks s ++ [(h, next_id (map Question.id (questions (txn s))))])
                       (fresh s) (log s ++ [EvInsert Questions]))
                   Hall')
        as (s' & R & H1 & H2 & H3).
      exists s'. now repeat split.
    + cbn in Ho. unfold insert_row, bind at 1, get_txn. rewrite Ho. run.
      edestruct (IH (mkSession (store s)
                       (mkDatabase (users (txn s)) (questions (txn s))
                          (append_answer (answers (txn s)) uid qid text))
                       (new s) (pks s ++ [(h, next_id (map Answer.id (answers (txn s))))])
                       (fresh s) (log s ++ [EvInsert Answers]))
                   Hall')
        as (s' & R & H1 & H2 & H3).
      exists s'. now repeat split.
Qed.

(** A flush of answers one of which does not fit the column raises
    [OverflowError]; the committed tables are not touched. *)
Lemma insert_rows_overflow (l : list (nat * transient)) (s : session) :
  Forall (fun ho => exists uid qid text, snd ho = NewAnswer uid qid text) l ->
  Exists (fun ho => exists uid qid text,
                      snd ho = NewAnswer uid qid text
                      /\ in_int64 qid = false) l ->
  exists s',
    for_each l (fun ho => insert_row (fst ho) (snd ho)) s
    = (Raise OverflowError, s')
    /\ store s' = store s.
Proof.
  revert s. induction l as [|[h o] l IH]; intros s Hall Hex.
  - inversion Hex.
  - inversion Hall as [|x l' (uid & qid & text & Ho) Hall' E]; subst.
    cbn [snd] in Ho. subst o.
    cbn [for_each snd fst]. unfold bind at 1.
    destruct (in_int64 qid) eqn:Hfit.
    + unfold insert_row, bind at 1, get_txn. rewrite Hfit. run.
      edestruct (IH (mkSession (store s)
                       (mkDatabase (users (txn s)) (questions (txn s))
                          (answers (txn s)
                           ++ [Answer.mk (next_id (map Answer.id (answers (txn s))))
                                 text uid qid]))
                       (new s) (pks s ++ [(h, next_id (map Answer.id (answers (txn s))))])
                       (fresh s) (log s ++ [EvInsert Answers]))
                   Hall')
        as (s' & R & H1).
      * inversion Hex as [? ? (u' & q' & t' & E' & Hq')|? ? Hex']; subst;
          [|exact Hex'].
        cbn in E'. injection E' as <- <- <-. congruence.
      * exists s'. split; [exact R | exact H1].
    + unfold insert_row, bind at 1, get_txn. rewrite Hfit. run.
      eexists. split; reflexivity.
Qed.

Lemma db_commit_run (s : session) :
  Forall (fun ho => storable (snd ho)) (new s) ->
  exists s',
    db_commit s = (Return tt, s')
    /\ store s' = insert_objects (map snd (new s)) (txn s)
    /\ txn s' = store s'
    /\ new s' = [].
Proof.
  intros Hall.
  destruct (insert_rows_run (new s)
              (mkSession (store s) (txn s) [] (pks s) (fresh s) (log s)) Hall)
    as (s1 & R & H1 & H2 & H3).
  unfold db_commit, flush. unfold bind at 1 2. rewrite R. run.
  eexists. split; [reflexivity|]. cbn. now repeat split.
Qed.

Lemma db_commit_overflow (s : session) :
  Forall (fun ho => exists uid qid text, snd ho = NewAnswer uid qid text)
         (new s) ->
  Exists (fun ho => exists uid qid text,
                      snd ho = NewAnswer uid qid text
                      /\ in_int64 qid = false) (new s) ->
  exists s', db_commit s = (Raise OverflowError, s') /\ store s' = store s.
Proof.
  intros Hall Hex.
  destruct (insert_rows_overflow (new s)
              (mkSession (store s) (txn s) [] (pks s) (fresh s) (log s))
              Hall Hex) as (s1 & R & H1).
  unfold db_commit, flush. unfold bind at 1 2. rewrite R.
  exists s1. split; [reflexivity | exact H1].
Qed.

Lemma form_answers_are_answers (uid : Z) (items : form_data) :
  Forall (fun o => exists u qid text, o = NewAnswer u qid text)
         (form_answers uid items).
Proof.
  induction items as [|kv items IH]; cbn; [constructor|].
  destruct (is_question_key kv); [|exact IH].
  destruct (item_qid kv); [|constructor].
  constructor; [now eexists _, _, _ | exact IH].
Qed.

Lemma form_answers_in (uid : Z) (items : form_data) (kv : string * string)
      (qid : Z) :
  all_parse items -> In kv items -> is_question_key kv = true ->
  item_qid kv = Some qid ->
  In (NewAnswer uid qid (snd kv)) (form_answers uid items).
Proof.
  induction items as [|kv' items IH]; intros Hall Hin Hk Hq; [destruct Hin|].
  assert (Hall' : all_parse items).
  { intros x Hx. apply Hall. now right. }
  cbn. destruct Hin as [->|Hin].
  - rewrite Hk, Hq. now left.
  - destruct (is_question_key kv') eqn:Hk'; [|now apply IH].
    destruct (item_qid kv') eqn:Hq'.
    + right. now apply IH.
    + exfalso. now apply (Hall kv' (or_introl eq_refl) Hk').
Qed.

Lemma form_answers_storable (uid : Z) (items : form_data) :
  all_storable items -> Forall storable (form_answers uid items).
Proof.
  induction items as [|kv items IH]; intros Hst; cbn; [constructor|].
  assert (Hst' : all_storable items).
  { intros x q Hx. apply Hst. now right. }
  destruct (is_question_key kv) eqn:Hk; [|now apply IH].
  destruct (item_qid kv) as [qid|] eqn:Hq; [|constructor].
  constructor; [|now apply IH].
  exact (Hst kv qid (or_introl eq_refl) Hk Hq).
Qed.

Lemma numbered_Forall (P : transient -> Prop) (start : nat)
      (objs : list transient) :
  Forall P objs -> Forall (fun ho => P (snd ho)) (numbered start objs).
Proof.
  intros H. apply Forall_forall. intros ho Hin.
  apply (in_map snd) in Hin. rewrite numbered_objects in Hin.
  exact (proj1 (Forall_forall P objs) H _ Hin).
Qed.

Lemma numbered_Exists (P : transient -> Prop) (start : nat)
      (objs : list transient) (o : transient) :
  In o objs -> P o -> Exists (fun ho => P (snd ho)) (numbered start objs).
Proof.
  intros Hin HP. rewrite <- (numbered_objects start objs) in Hin.
  apply in_map_iff in Hin. destruct Hin as (ho & <- & Hho).
  apply Exists_exists. now exists ho.
Qed.

Lemma all_storable_or_not (items : form_data) :
  all_storable items
  \/ exists kv qid, In kv items /\ is_question_key kv = true
                    /\ item_qid kv = Some qid /\ in_int64 qid = false.
Proof.
  induction items as [|kv items IH].
  - left. intros kv qid [].
  - destruct IH as [IH|(kv' & qid & Hin & Hk & Hq & Hfit)].
    + destruct (is_question_key kv) eqn:Hk.
      * destruct (item_qid kv) as [qid|] eqn:Hq.
        -- destruct (in_int64 qid) eqn:Hfit.
           ++ left. intros x q [<-|Hx] Hkx Hqx; [|now apply (IH x q)].
              congruence.
           ++ right. exists kv, qid. split; [now left | now repeat split].
        -- left. intros x q [<-|Hx] Hkx Hqx; [congruence|now apply (IH x q)].
      * left. intros x q [<-|Hx] Hkx Hqx; [congruence|now apply (IH x q)].
    + right. exists kv', qid. split; [now right | now repeat split].
Qed.

(** * The submit handler *)

Lemma submit_answers_redirect (form : form_data) (db : database) :
  Py.truthy (form_get form "name") = false ->
  serve (PostSubmit form) db
  = mkServed (Return (RedirectResponse "/" 302)) db [].
Proof.
  intros H. unfold serve, in_session, handler, submit_answers.
  rewrite H. reflexivity.
Qed.

Lemma truthy_some (name : string) :
  name <> EmptyString -> Py.truthy (Some name) = true.
Proof. destruct name; [contradiction | reflexivity]. Qed.

(** The session at the final commit of a submit whose keys all parse. *)
Lemma submit_answers_at_commit (form : form_data) (name : string)
      (db : database) :
  form_get form "name" = Some name -> name <> EmptyString ->
  all_parse (form_items form) ->
  exists s,
    submit_answers form (open_session db)
    = (db_commit ;;;
       ret (TemplateResponse "thankyou.html" (CtxThankyou name))) s
    /\ store s = snd (ensure_user name db)
    /\ txn s = snd (ensure_user name db)
    /\ new s
       = numbered (fresh (session_with_user name db))
           (form_answers (User.id (fst (ensure_user name db)))
              (form_items form)).
Proof.
  intros Hname Hne Hall.
  unfold submit_answers.
  rewrite Hname, (truthy_some name Hne). cbn [negb].
  rewrite find_or_create_run.
  unfold bind at 1. rewrite submit_loop_ok by exact Hall.
  destruct (session_with_user_tables name db) as (Hs & Ht & Hn).
  rewrite Hn, Ht, Hs. cbn [app].
  eexists. split; [reflexivity|]. cbn [store txn new].
  split; [reflexivity|]. split; reflexivity.
Qed.

Lemma submit_answers_run (form : form_data) (name : string) (db : database) :
  form_get form "name" = Some name -> name <> EmptyString ->
  all_parse (form_items form) -> all_storable (form_items form) ->
  let u := fst (ensure_user name db) in
  result (serve (PostSubmit form) db)
  = Return (TemplateResponse "thankyou.html" (CtxThankyou name))
  /\ db_after (serve (PostSubmit form) db)
     = insert_objects (form_answers (User.id u) (form_items form))
         (snd (ensure_user name db)).
Proof.
  intros Hname Hne Hall Hst u.
  destruct (submit_answers_at_commit form name db Hname Hne Hall)
    as (s & E & Hs & Ht & Hn).
  destruct (db_commit_run s) as (s' & R & H1 & H2 & H3).
  { rewrite Hn. apply numbered_Forall. now apply form_answers_storable. }
  unfold serve, in_session, handler. rewrite E.
  unfold bind. rewrite R. cbn [ret result db_after].
  rewrite Hn, Ht, numbered_objects in H1. split; [reflexivity | exact H1].
Qed.

(** A submit whose keys all parse, one of them to an id that does not fit
    the column: the final commit raises, the answers are not stored. *)
Lemma submit_answers_overflow (form : form_data) (name : string)
      (db : database) (kv : string * string) (qid : Z) :
  form_get form "name" = Some name -> name <> EmptyString ->
  all_parse (form_items form) ->
  In kv (form_items form) -> is_question_key kv = true ->
  item_qid kv = Some qid -> in_int64 qid = false ->
  result (serve (PostSubmit form) db) = Raise OverflowError
  /\ db_after (serve (PostSubmit form) db) = snd (ensure_user name db).
Proof.
  intros Hname Hne Hall Hin Hk Hq Hfit.
  destruct (submit_answers_at_commit form name db Hname Hne Hall)
    as (s & E & Hs & Ht & Hn).
  destruct (db_commit_overflow s) as (s' & R & H1).
  { rewrite Hn.
    apply (numbered_Forall (fun o => exists u q t, o = NewAnswer u q t)).
    apply form_answers_are_answers. }
  { rewrite Hn.
    apply (numbered_Exists
             (fun o => exists u q t, o = NewAnswer u q t
                                     /\ in_int64 q = false)
             _ _ (NewAnswer (User.id (fst (ensure_user name db))) qid
                    (snd kv))).
    - now apply form_answers_in.
    - now eexists _, _, _. }
  unfold serve, in_session, handler. rewrite E.
  unfold bind. rewrite R. cbn [result db_after]. rewrite H1, Hs.
  split; reflexivity.
Qed.

Lemma insert_form_answers (uid : Z) (items : form_data) (d : database) :
  all_parse items ->
  exists rows,
    insert_objects (form_answers uid items) d
    = mkDatabase (users d) (questions d) (answers d ++ rows)
    /\ Forall2 (fun kv a =>
                  Answer.user_id a = uid
                  /\ item_qid kv = Some (Answer.question_id a)
                  /\ Answer.answer_text a = snd kv)
               (filter is_question_key items) rows.
Proof.
  revert d. induction items as [|kv items IH]; intros d Hall.
  - exists []. cbn. rewrite app_nil_r. destruct d. split; [reflexivity|].
    constructor.
  - assert (Hall' : all_parse items).
    { intros kv' Hin. apply Hall. now right. }
    specialize (Hall kv (or_introl eq_refl)). cbn [form_answers filter].
    destruct (is_question_key kv) eqn:Hk; [|now apply IH].
    specialize (Hall eq_refl).
    destruct (item_qid kv) as [qid|] eqn:Hq; [|contradiction].
    cbn [insert_objects].
    edestruct (IH (mkDatabase (users d) (questions d)
                     (append_answer (answers d) uid qid (snd kv))) Hall')
      as (rows & E & HF).
    exists (Answer.mk (next_id (map Answer.id (answers d))) (snd kv) uid qid
              :: rows).
    split.
    + rewrite E. cbn. unfold append_answer. now rewrite <- app_assoc.
    + constructor; [now repeat split | exact HF].
Qed.

Lemma submit_answers_rows
        (form : form_data) (name : string) (db : database) :
  form_get form "name" = Some name -> name <> EmptyString ->
  all_parse (form_items form) -> all_storable (form_items form) ->
  let fields := filter is_question_key (form_items form) in
  let user := fst (ensure_user name db) in
  let out := serve (PostSubmit form) db in
  result out = Return (TemplateResponse "thankyou.html" (CtxThankyou name))
  /\ User.name user = name
  /\ In user (users (db_after out))
  /\ users (db_after out) = users (snd (ensure_user name db))
  /\ questions (db_after out) = questions db
  /\ exists rows,
       answers (db_after out) = answers db ++ rows
       /\ List.length rows = List.length fields
       /\ Forall2 (fun kv a =>
                     Answer.user_id a = User.id user
                     /\ item_qid kv = Some (Answer.question_id a)
                     /\ Answer.answer_text a = snd kv)
                  fields rows.
Proof.
  intros Hname Hne Hall Hst fields user out. subst out.
  destruct (submit_answers_run form name db Hname Hne Hall Hst) as [R D].
  fold user in D. rewrite D.
  destruct (insert_form_answers (User.id user) (form_items form)
              (snd (ensure_user name db)) Hall) as (rows & E & HF).
  rewrite E. cbn [users questions answers].
  assert (Q : questions (snd (ensure_user name db)) = questions db
              /\ answers (snd (ensure_user name db)) = answers db).
  { unfold ensure_user. now destruct (lookup_user name db). }
  destruct Q as [Q1 Q2]. rewrite Q1, Q2.
  split; [exact R|]. split; [apply ensure_user_named|].
  split; [apply ensure_user_in|]. split; [reflexivity|].
  split; [reflexivity|]. exists rows. split; [reflexivity|].
  split; [symmetry; eapply Forall2_length; exact HF | exact HF].
Qed.

(** * Form fields and the mapping view *)

Lemma dict_set_keys (d : form_data) (k v k' : string) :
  In k' (map fst (dict_set d k v)) <-> k' = k \/ In k' (map fst d).
Proof.
  induction d as [|[k0 v0] d IH]; cbn.
  - intuition.
  - destruct (String.eqb_spec k0 k) as [E|E]; cbn.
    + subst. intuition.
    + rewrite IH. intuition.
Qed.

Lemma fold_dict_keys (form acc : form_data) (k : string) :
  In k (map fst (fold_left (fun d kv => dict_set d (fst kv) (snd kv))
                   form acc))
  <-> In k (map fst acc) \/ In k (map fst form).
Proof.
  revert acc. induction form as [|[k0 v0] form IH]; intros acc; cbn.
  - intuition.
  - rewrite IH, dict_set_keys. cbn. intuition.
Qed.

Lemma form_items_keys (form : form_data) (k : string) :
  In k (map fst (form_items form)) <-> In k (map fst form).
Proof.
  unfold form_items, form_dict. rewrite fold_dict_keys. cbn. intuition.
Qed.

Lemma form_get_none (form : form_data) (k : string) :
  ~ In k (map fst form) -> form_get form k = None.
Proof.
  intros H. unfold form_get.
  destruct (find _ (form_dict form)) as [[k0 v0]|] eqn:Hf; [|reflexivity].
  exfalso. apply find_some in Hf. destruct Hf as [Hin E]. cbn in E.
  apply String.eqb_eq in E. subst k0. apply H.
  apply (form_items_keys form k). apply in_map_iff.
  exists (k, v0). now split.
Qed.

Lemma dict_set_new (d : form_data) (k v : string) :
  ~ In k (map fst d) -> dict_set d k v = d ++ [(k, v)].
Proof.
  induction d as [|[k0 v0] d IH]; cbn; intros H; [reflexivity|].
  destruct (String.eqb_spec k0 k) as [E|E].
  - exfalso. apply H. now left.
  - f_equal. apply IH. intros Hin. apply H. now right.
Qed.

(** With pairwise distinct keys the mapping view is the field list. *)
Lemma form_items_distinct (form : form_data) :
  NoDup (map fst form) -> form_items form = form.
Proof.
  unfold form_items, form_dict.
  assert (G : forall acc,
             NoDup (map fst (acc ++ form)) ->
             fold_left (fun d kv => dict_set d (fst kv) (snd kv)) form acc
             = acc ++ form).
  { induction form as [|[k v] form IH]; intros acc Hnd; cbn.
    - now rewrite app_nil_r.
    - rewrite map_app in Hnd. cbn in Hnd.
      rewrite dict_set_new.
      + rewrite IH; rewrite <- app_assoc; [reflexivity|].
        now rewrite map_app.
      + apply NoDup_remove_2 in Hnd. intros Hin. apply Hnd.
        apply in_or_app. now left. }
  intros Hnd. now apply (G []).
Qed.

Lemma dict_set_filter (p : string -> bool) (d : form_data) (k v : string) :
  filter (fun kv => p (fst kv)) (dict_set d k v)
  = if p k then dict_set (filter (fun kv => p (fst kv)) d) k v
    else filter (fun kv => p (fst kv)) d.
Proof.
  induction d as [|[k0 v0] d IH]; cbn.
  - now destruct (p k).
  - destruct (String.eqb_spec k0 k) as [->|E]; cbn.
    + destruct (p k); cbn; [|reflexivity]. now rewrite String.eqb_refl.
    + rewrite IH. destruct (p k0) eqn:H0, (p k) eqn:Hk; cbn;
        try reflexivity.
      destruct (String.eqb_spec k0 k); [contradiction | reflexivity].
Qed.

Lemma fold_dict_filter (p : string -> bool) (form acc : form_data) :
  filter (fun kv => p (fst kv))
    (fold_left (fun d kv => dict_set d (fst kv) (snd kv)) form acc)
  = fold_left (fun d kv => dict_set d (fst kv) (snd kv))
      (filter (fun kv => p (fst kv)) form)
      (filter (fun kv => p (fst kv)) acc).
Proof.
  revert acc. induction form as [|[k v] form IH]; intros acc; cbn;
    [reflexivity|].
  rewrite IH, dict_set_filter. now destruct (p k).
Qed.

(** With pairwise distinct question keys, the question items the handler
    walks through are the question fields of the form, in their order. *)
Lemma question_fields_distinct (form : form_data) :
  NoDup (map fst (filter is_question_key form)) ->
  filter is_question_key (form_items form) = filter is_question_key form.
Proof.
  intros Hnd. unfold form_items, form_dict, is_question_key.
  rewrite (fold_dict_filter (fun k => Py.startswith k "question_")).
  cbn [filter]. now apply (form_items_distinct (filter _ form)).
Qed.

Lemma dict_set_in (d : form_data) (k v : string) : In (k, v) (dict_set d k v).
Proof.
  induction d as [|[k0 v0] d IH]; cbn; [now left|].
  destruct (String.eqb_spec k0 k) as [->|E]; [now left | now right].
Qed.

Lemma dict_set_other (d : form_data) (k v k' v' : string) :
  k' <> k -> In (k, v) d -> In (k, v) (dict_set d k' v').
Proof.
  intros Hne. induction d as [|[k0 v0] d IH]; cbn; [intros []|].
  intros [E|Hin].
  - injection E as -> ->.
    destruct (String.eqb_spec k k'); [congruence | now left].
  - destruct (String.eqb k0 k'); right; auto.
Qed.

(** The last field of a key is an item of the mapping view. *)
Lemma last_field_item (form : form_data) (kv : string * string) :
  last_field form kv -> In kv (form_items form).
Proof.
  intros (before & after & -> & Hlast). destruct kv as [k v].
  unfold form_items, form_dict. rewrite fold_left_app. cbn [fold_left fst snd].
  cbn [fst] in Hlast.
  generalize (fold_left (fun d kv => dict_set d (fst kv) (snd kv)) before []).
  intros acc. pose proof (dict_set_in acc k v) as Hin.
  revert Hin. generalize (dict_set acc k v). clear acc.
  induction after as [|[k' v'] after IH]; intros acc Hin; [exact Hin|].
  cbn [fold_left fst snd]. apply IH.
  - intros H. apply Hlast. now right.
  - apply dict_set_other; [|exact Hin].
    intros ->. apply Hlast. now left.
Qed.

(** What the handler asks of the question keys depends on the keys only:
    it holds of the fields exactly when it holds of the items. *)
Lemma keys_items (P : string -> Prop) (form : form_data) :
  (forall kv, In kv form -> P (fst kv)) ->
  forall kv, In kv (form_items form) -> P (fst kv).
Proof.
  intros H kv Hin.
  assert (Hk : In (fst kv) (map fst form)).
  { apply form_items_keys. now apply in_map. }
  apply in_map_iff in Hk. destruct Hk as (kv' & E & Hin').
  rewrite <- E. now apply H.
Qed.

Lemma all_parse_items (form : form_data) :
  all_parse form -> all_parse (form_items form).
Proof.
  intros H [k v] Hin Hk.
  refine (keys_items
            (fun k => forall v, is_question_key (k, v) = true ->
                                item_qid (k, v) <> None)
            form _ (k, v) Hin v Hk).
  intros [k' v'] Hkv v''. exact (H (k', v') Hkv).
Qed.

Lemma all_storable_items (form : form_data) :
  all_storable form -> all_storable (form_items form).
Proof.
  intros H [k v] qid Hin Hk Hq.
  refine (keys_items
            (fun k => forall v q, is_question_key (k, v) = true ->
                                  item_qid (k, v) = Some q ->
                                  in_int64 q = true)
            form _ (k, v) Hin v qid Hk Hq).
  intros [k' v'] Hkv v'' q. exact (H (k', v') q Hkv).
Qed.




(** C5: a submit request whose form has no [name] field is answered by a
    302 redirect to [/]; the three tables are left as they were and the
    session issues no statement at all. *)
Theorem submit_without_name_redirects (form : form_data) (db : database) :
  ~ In "name" (map fst form) ->
  result (serve (PostSubmit form) db) = Return (RedirectResponse "/" 302)
  /\ (forall r, result (serve (PostSubmit form) db) = Return r ->
                status_code r = 302)
  /\ db_after (serve (PostSubmit form) db) = db
  /\ trace (serve (PostSubmit form) db) = [].
Proof.
  intros H. rewrite submit_answers_redirect.
  - cbn. repeat split. intros r E. now injection E as <-.
  - now rewrite (form_get_none form "name" H).
Qed.

Lemma submit_without_name_redirects_witness :
  ~ In "name" (map fst [("question_1", "x")])
  /\ db_after (serve (PostSubmit [("question_1", "x")]) empty_db) = empty_db.
Proof.
  assert (H : ~ In "name" (map fst [("question_1", "x")])).
  { cbn. intros [E|[]]. discriminate E. }
  split; [exact H|].
  exact (proj1 (proj2 (proj2
           (submit_without_name_redirects [("question_1", "x")] empty_db H)))).
Defined.

(** C9, as stated, fails in its second half: [POST /questions] with the
    empty name creates no user. *)
Lemma questions_empty_name_creates_no_user :
  ~ (exists u,
        In u (users (db_after (serve (PostQuestions EmptyString) empty_db)))
        /\ User.name u = EmptyString).
Proof. intros (u & Hin & _). exact Hin. Qed.

(** C9 (amended): a submit request whose name is the empty string gets
    what a submit request without a name gets, the 302 redirect to [/]
    with the tables untouched and no user created; [POST /questions] with
    the empty name is answered 422 by the validation of its required form
    field, without running [get_questions], and leaves the tables
    untouched too, so the two routes answer the empty name differently.
    The function [get_questions] has no guard of its own: run with the
    empty name it renders the questionnaire and leaves a user whose name
    is the empty string. *)
Theorem empty_name_submit_redirects_questions_rejects
        (form : form_data) (db : database) :
  form_get form "name" = Some EmptyString ->
  serve (PostSubmit form) db
  = mkServed (Return (RedirectResponse "/" 302)) db []
  /\ (forall form', ~ In "name" (map fst form') ->
                    serve (PostSubmit form') db = serve (PostSubmit form) db)
  /\ serve (PostQuestions EmptyString) db
     = mkServed (Return ValidationErrorResponse) db []
  /\ status_code ValidationErrorResponse = 422
  /\ result (serve (PostQuestions EmptyString) db)
     <> result (serve (PostSubmit form) db)
  /\ result (in_session (get_questions EmptyString) db)
     = Return (TemplateResponse "questions.html"
                 (CtxQuestions EmptyString (questions db)))
  /\ (exists u,
         In u (users (db_after (in_session (get_questions EmptyString) db)))
         /\ User.name u = EmptyString).
Proof.
  intros Hname.
  assert (R : serve (PostSubmit form) db
              = mkServed (Return (RedirectResponse "/" 302)) db []).
  { apply submit_answers_redirect. now rewrite Hname. }
  destruct (get_questions_function_run EmptyString db) as (RQ & DQ & _).
  split; [exact R|]. split.
  { intros form' H'. rewrite R. apply submit_answers_redirect.
    now rewrite (form_get_none form' "name" H'). }
  split; [apply questions_empty_name|]. split; [reflexivity|]. split.
  { rewrite R, questions_empty_name. cbn. discriminate. }
  split; [exact RQ|]. rewrite DQ.
  exists (fst (ensure_user EmptyString db)).
  split; [apply ensure_user_in | apply ensure_user_named].
Qed.

Lemma empty_name_submit_redirects_questions_rejects_witness :
  form_get [("name", EmptyString); ("question_1", "x")] "name"
  = Some EmptyString
  /\ serve (PostSubmit [("name", EmptyString); ("question_1", "x")]) empty_db
     = mkServed (Return (RedirectResponse "/" 302)) empty_db []
  /\ serve (PostQuestions EmptyString) empty_db
     = mkServed (Return ValidationErrorResponse) empty_db [].
Proof.
  assert (H : form_get [("name", EmptyString); ("question_1", "x")] "name"
              = Some EmptyString) by reflexivity.
  split; [exact H|].
  destruct (empty_name_submit_redirects_questions_rejects
              [("name", EmptyString); ("question_1", "x")] empty_db H)
    as (R & _ & Q & _).
  split; [exact R | exact Q].
Defined.

Lemma Forall2_pick {A B} (R : A -> B -> Prop) (l : list A) (l' : list B)
      (x : A) :
  Forall2 R l l' -> In x l -> exists y, In y l' /\ R x y.
Proof.
  induction 1 as [|x0 y0 l l' HR HF IH]; intros Hin; [destruct Hin|].
  destruct Hin as [<-|Hin].
  - exists y0. split; [now left | exact HR].
  - destruct (IH Hin) as (y & Hy & Hxy). exists y. split; [now right|exact Hxy].
Qed.

Lemma Forall2_pick_r {A B} (R : A -> B -> Prop) (l : list A) (l' : list B)
      (y : B) :
  Forall2 R l l' -> In y l' -> exists x, In x l /\ R x y.
Proof.
  induction 1 as [|x0 y0 l l' HR HF IH]; intros Hin; [destruct Hin|].
  destruct Hin as [<-|Hin].
  - exists x0. split; [now left | exact HR].
  - destruct (IH Hin) as (x & Hx & Hxy). exists x. split; [now right|exact Hxy].
Qed.

(** * The results handler *)

Lemma answer_record_run (a : Answer.t) (s : session) :
  answer_record a s
  = (match question_of (txn s) a with
     | Some q =>
         Return (mkResultAnswer (Question.text q) (Answer.answer_text a))
     | None => Raise AttributeError
     end, logged s [EvSelect Questions]).
Proof.
  unfold answer_record, question_of, logged. run.
  now destruct (find _ _).
Qed.

(** A comprehension over a body that only reads: the tables are kept, a
    returned list is related to the input element by element, and the
    comprehension returns when the body does on every element. *)
Section Comprehension.
Context {A B : Type}.
Variable f : A -> M B.
Variable R : database -> A -> B -> Prop.
Variable ok : database -> A -> Prop.

Hypothesis f_reads : forall x, reads R ok x (f x).

Lemma comprehension_reads (xs : list A) (s : session) :
  let out := comprehension xs f s in
  store (snd out) = store s /\ txn (snd out) = txn s
  /\ (forall ys, fst out = Return ys -> Forall2 (R (txn s)) xs ys)
  /\ ((forall x, In x xs -> ok (txn s) x) -> exists ys, fst out = Return ys).
Proof.
  revert s. induction xs as [|x xs IH]; intros s; cbn zeta.
  - cbn. repeat split.
    + intros ys E. injection E as <-. constructor.
    + intros _. now exists [].
  - cbn [comprehension]. unfold bind.
    destruct (f_reads x s) as (F1 & F2 & F3 & F4).
    destruct (f x s) as [[y|e] s0]; cbn [fst snd] in *.
    + specialize (IH s0). cbn zeta in IH. rewrite F1, F2 in IH.
      destruct IH as (H1 & H2 & H3 & H4).
      destruct (comprehension xs f s0) as [[ys|e] s1]; cbn [fst snd] in *.
      * split; [exact H1|]. split; [exact H2|]. split.
        -- intros ys' E. injection E as <-.
           constructor; [now apply F3 | now apply H3].
        -- intros _. eexists. reflexivity.
      * split; [exact H1|]. split; [exact H2|]. split.
        -- intros ys' E. discriminate E.
        -- intros Hall. destruct H4 as [ys E]; [|discriminate E].
           intros x' Hin. apply Hall. now right.
    + split; [exact F1|]. split; [exact F2|]. split.
      * intros ys E. discriminate E.
      * intros Hall. destruct F4 as [y E]; [|discriminate E].
        apply Hall. now left.
Qed.
End Comprehension.

Lemma answer_record_reads (a : Answer.t) :
  reads shows (fun d a => question_of d a <> None) a (answer_record a).
Proof.
  intros s. rewrite answer_record_run. cbn [fst snd store txn logged].
  split; [reflexivity|]. split; [reflexivity|].
  destruct (question_of (txn s) a) as [q|] eqn:Hq; split.
  - intros y E. injection E as <-. exists q. now split.
  - intros _. eexists. reflexivity.
  - intros y E. discriminate E.
  - intros H. now destruct H.
Qed.

Lemma user_record_reads (u : User.t) :
  reads entry_for
        (fun d u => forall a, In a (answers_of d u) -> question_of d a <> None)
        u (user_record u).
Proof.
  intros s. unfold user_record. unfold bind at 1 3 5 7.
  unfold User_answers at 1 2 3 4. run.
  fold (answers_of (txn s) u). fold (logged s [EvSelect Answers]).
  pose proof (comprehension_reads answer_record shows
                (fun d a => question_of d a <> None) answer_record_reads
                (answers_of (txn s) u) (logged s [EvSelect Answers])) as H.
  cbn zeta in H. cbn [txn store logged] in H.
  destruct H as (H1 & H2 & H3 & H4).
  unfold bind.
  destruct (comprehension (answers_of (txn s) u) answer_record
              (logged s [EvSelect Answers])) as [[ys|e] s1];
    cbn [fst snd] in *.
  - split; [exact H1|]. split; [exact H2|]. split.
    + intros y E. injection E as <-. split; [reflexivity|]. now apply H3.
    + intros _. eexists. reflexivity.
  - split; [exact H1|]. split; [exact H2|]. split.
    + intros y E. discriminate E.
    + intros Hall. destruct (H4 Hall) as [ys E]. discriminate E.
Qed.

Lemma view_results_wrong_code (code : string) (db : database) :
  code <> EmptyString -> code <> "072823" ->
  serve (PostResults code) db
  = mkServed
      (Return (TemplateResponse "results_login.html"
                 (CtxError "Invalid code.")))
      db [].
Proof.
  intros Hne H. unfold serve, in_session, handler.
  rewrite (required_form_value _ _ Hne). unfold view_results.
  destruct (String.eqb_spec code "072823") as [E|E]; [contradiction|].
  reflexivity.
Qed.

Lemma answers_of_resolve (d : database) (u : User.t) :
  questions_resolve d ->
  forall a, In a (answers_of d u) -> question_of d a <> None.
Proof.
  intros H a Hin. apply H. unfold answers_of in Hin.
  now apply filter_In in Hin.
Qed.

Lemma view_results_right_code (db : database) :
  let out := serve (PostResults "072823") db in
  db_after out = db
  /\ (forall r, result out = Return r ->
                exists data,
                  r = TemplateResponse "results.html" (CtxResults data)
                  /\ Forall2 (entry_for db) (users db) data)
  /\ (questions_resolve db ->
      exists data,
        result out
        = Return (TemplateResponse "results.html" (CtxResults data))).
Proof.
  set (s0 := mkSession db db [] [] 0%nat [EvSelect Users]).
  assert (E0 : view_results "072823" (open_session db)
               = match comprehension (users db) user_record s0 with
                 | (Return data, s') =>
                     (Return (TemplateResponse "results.html"
                                (CtxResults data)), s')
                 | (Raise e, s') => (Raise e, s')
                 end) by reflexivity.
  pose proof (comprehension_reads user_record entry_for
                (fun d u => forall a, In a (answers_of d u) ->
                                      question_of d a <> None)
                user_record_reads (users db) s0) as H.
  cbn zeta in H. cbn [txn store s0] in H.
  destruct H as (H1 & H2 & H3 & H4).
  unfold serve, in_session, handler. cbn [required_form]. rewrite E0.
  destruct (comprehension (users db) user_record s0) as [[ys|e] s1];
    cbn [fst snd result db_after] in *.
  - split; [exact H1|]. split.
    + intros r E. injection E as <-. exists ys. split; [reflexivity|].
      now apply H3.
    + intros _. exists ys. reflexivity.
  - split; [exact H1|]. split.
    + intros r E. discriminate E.
    + intros Hres. destruct H4 as [ys E]; [|discriminate E].
      intros u _. now apply answers_of_resolve.
Qed.

(** C1, the failing request: after the seed routine, a submit for user [a]
    with the field [question_999] stores an answer whose question does not
    exist; the results handler called with the right code then raises
    [AttributeError] instead of returning the results view. *)
Theorem view_results_raises_on_orphan_answer :
  let db0 := db_after (startup empty_db) in
  let db1 :=
    db_after (serve (PostSubmit [("name", "a"); ("question_999", "x")])
                db0) in
  answers db1 = [Answer.mk 1 "x" 1 999]
  /\ questions db1 = seeded_questions
  /\ result (serve (PostResults "072823") db1) = Raise AttributeError.
Proof. vm_compute. repeat split. Qed.

(** In general: when some user has an answer whose question is missing, the
    results handler called with the right code returns no response. *)
Lemma view_results_orphan_no_view (db : database) (u : User.t)
      (a : Answer.t) :
  In u (users db) -> In a (answers_of db u) -> question_of db a = None ->
  forall r, result (serve (PostResults "072823") db) <> Return r.
Proof.
  intros Hu Ha Hq r E.
  destruct (view_results_right_code db) as (_ & R & _).
  destruct (R r E) as (data & _ & HF).
  destruct (Forall2_pick _ _ _ u HF Hu) as (e & _ & _ & Hans).
  destruct (Forall2_pick _ _ _ a Hans Ha) as (y & _ & q & Hfind & _).
  rewrite Hq in Hfind. discriminate Hfind.
Qed.

(** The parts of C1 that hold: a wrong, non-empty code gets the login form
    with the error and status 200 and the session issues no statement (an
    empty code is answered 422 by the validation of the required field,
    again with no statement); the right code gets the results view, built
    from every user and the user's answers with their questions' texts,
    when every answer's question exists. *)
Lemma view_results_passcode (code : string) (db : database) :
  (code <> EmptyString -> code <> "072823" ->
   result (serve (PostResults code) db)
   = Return (TemplateResponse "results_login.html" (CtxError "Invalid code."))
   /\ status_code (TemplateResponse "results_login.html"
                     (CtxError "Invalid code.")) = 200
   /\ db_after (serve (PostResults code) db) = db
   /\ trace (serve (PostResults code) db) = [])
  /\ (code = EmptyString ->
      serve (PostResults code) db
      = mkServed (Return ValidationErrorResponse) db [])
  /\ (code = "072823" -> questions_resolve db ->
      exists data,
        result (serve (PostResults code) db)
        = Return (TemplateResponse "results.html" (CtxResults data))
        /\ Forall2 (entry_for db) (users db) data
        /\ db_after (serve (PostResults code) db) = db).
Proof.
  split; [|split].
  - intros Hne H. rewrite (view_results_wrong_code code db Hne H).
    now repeat split.
  - intros ->. apply results_empty_code.
  - intros -> Hres.
    destruct (view_results_right_code db) as (D & R & T).
    destruct (T Hres) as [data E]. exists data. split; [exact E|].
    split; [|exact D].
    destruct (R _ E) as (data' & E' & HF). now injection E' as <-.
Qed.

(** * Malformed question keys *)

Lemma all_parse_or_not (items : form_data) :
  all_parse items
  \/ exists kv, In kv items /\ is_question_key kv = true
                /\ item_qid kv = None.
Proof.
  induction items as [|kv items IH].
  - left. intros kv [].
  - destruct (is_question_key kv) eqn:Hk.
    + destruct (item_qid kv) as [qid|] eqn:Hq.
      * destruct IH as [IH|(kv' & Hin & Hk' & Hq')].
        -- left. intros kv' [<-|Hin] Hk'; [now rewrite Hq | now apply IH].
        -- right. exists kv'. split; [now right | now split].
      * right. exists kv. split; [now left | now split].
    + destruct IH as [IH|(kv' & Hin & Hk' & Hq')].
      * left. intros kv' [<-|Hin] Hk'; [congruence | now apply IH].
      * right. exists kv'. split; [now right | now split].
Qed.

Lemma submit_answers_raises (form : form_data) (name : string)
      (db : database) (kv : string * string) :
  form_get form "name" = Some name -> name <> EmptyString ->
  In kv (form_items form) -> is_question_key kv = true ->
  item_qid kv = None ->
  result (serve (PostSubmit form) db) = Raise ValueError
  /\ db_after (serve (PostSubmit form) db) = snd (ensure_user name db).
Proof.
  intros Hname Hne Hin Hk Hq.
  set (u := fst (ensure_user name db)).
  assert (Hrun : exists s',
             submit_answers form (open_session db) = (Raise ValueError, s')
             /\ store s' = snd (ensure_user name db)).
  { unfold submit_answers.
    rewrite Hname, (truthy_some name Hne). cbn [negb].
    rewrite find_or_create_run. fold u. unfold bind at 1.
    pose proof (submit_loop_raises u (form_items form)
                  (session_with_user name db) kv Hin Hk Hq) as HR.
    destruct (submit_loop_frame u (form_items form)
                (session_with_user name db)) as [HS _].
    destruct (session_with_user_tables name db) as (Hs & _ & _).
    destruct (for_each (form_items form) (submit_item u)
                (session_with_user name db)) as [r s1].
    cbn [fst snd] in *. subst r. exists s1. split; [reflexivity|].
    now rewrite HS. }
  destruct Hrun as (s' & R & Hstore).
  unfold serve, in_session, handler. rewrite R. cbn. now split.
Qed.

Lemma ensure_user_keeps (name : string) (db : database) :
  questions (snd (ensure_user name db)) = questions db
  /\ answers (snd (ensure_user name db)) = answers db
  /\ exists us, users (snd (ensure_user name db)) = users db ++ us.
Proof.
  unfold ensure_user. destruct (lookup_user name db); cbn.
  - repeat split. exists []. now rewrite app_nil_r.
  - repeat split. eexists. reflexivity.
Qed.

(** C8: a submit request with a non-empty name and a [question_] key whose
    id segment does not parse, such as [question_abc] or [question_], does
    not complete: the handler raises [ValueError], and the answers table
    is what it was, so no answer of the request is committed (the user row
    of the find-or-create step is). *)
Theorem submit_malformed_key_raises
        (form : form_data) (name : string) (db : database)
        (kv : string * string) :
  form_get form "name" = Some name -> name <> EmptyString ->
  In kv (form_items form) -> is_question_key kv = true ->
  item_qid kv = None ->
  result (serve (PostSubmit form) db) = Raise ValueError
  /\ answers (db_after (serve (PostSubmit form) db)) = answers db
  /\ db_after (serve (PostSubmit form) db) = snd (ensure_user name db).
Proof.
  intros Hname Hne Hin Hk Hq.
  destruct (submit_answers_raises form name db kv Hname Hne Hin Hk Hq)
    as [R D].
  split; [exact R|]. split; [|exact D]. rewrite D.
  apply ensure_user_keeps.
Qed.

Lemma submit_malformed_key_raises_witness :
  let form1 := [("name", "Ann"); ("question_1", "a"); ("question_abc", "b")] in
  let form2 := [("name", "Ann"); ("question_", "c")] in
  (result (serve (PostSubmit form1) empty_db) = Raise ValueError
   /\ answers (db_after (serve (PostSubmit form1) empty_db)) = [])
  /\ (result (serve (PostSubmit form2) empty_db) = Raise ValueError
      /\ answers (db_after (serve (PostSubmit form2) empty_db)) = []).
Proof.
  intros form1 form2. split.
  - destruct (submit_malformed_key_raises form1 "Ann" empty_db
                ("question_abc", "b")) as (R & A & _);
      [reflexivity | discriminate | | reflexivity | reflexivity | ].
    + vm_compute. right. right. now left.
    + split; [exact R | exact A].
  - destruct (submit_malformed_key_raises form2 "Ann" empty_db
                ("question_", "c")) as (R & A & _);
      [reflexivity | discriminate | | reflexivity | reflexivity | ].
    + vm_compute. right. now left.
    + split; [exact R | exact A].
Defined.

(** * Numeric segments *)

Lemma digit_not_special (c : ascii) (d : Z) :
  Py.digit_value c = Some d ->
  Py.isspace c = false /\ Ascii.eqb c "_" = false
  /\ c <> "-"%char /\ c <> "+"%char.
Proof.
  destruct c as [b0 b1 b2 b3 b4 b5 b6 b7].
  destruct b0, b1, b2, b3, b4, b5, b6, b7; vm_compute; intros H;
    try discriminate H; repeat split; discriminate.
Qed.

Lemma digits_all (s : string) (prev : bool) (acc : Z) :
  all_digits s = true -> s <> EmptyString \/ prev = true ->
  Py.digits s prev acc = Some (decimal s acc).
Proof.
  revert prev acc. induction s as [|c s IH]; intros prev acc Hall Hne; cbn.
  - destruct Hne as [Hne| ->]; [contradiction | reflexivity].
  - cbn in Hall. destruct (Py.digit_value c) as [d|]; [|discriminate].
    apply IH; [exact Hall | now right].
Qed.

Lemma rstrip_digits (s : string) : all_digits s = true -> Py.rstrip s = s.
Proof.
  induction s as [|c s IH]; cbn; [reflexivity|]. intros Hall.
  destruct (Py.digit_value c) as [d|] eqn:Hd; [|discriminate].
  rewrite (IH Hall). destruct s; [|reflexivity].
  destruct (digit_not_special c d Hd) as (-> & _). reflexivity.
Qed.

Lemma count_digits_all (s : string) :
  all_digits s = true -> Py.count_digits s = Z.of_nat (String.length s).
Proof.
  induction s as [|c s IH]; [reflexivity|]. cbn [all_digits Py.count_digits].
  destruct (Py.digit_value c); [|discriminate]. intros H.
  rewrite (IH H). cbn [String.length]. lia.
Qed.

(** [int] on a numeric string within the digit limit is its decimal value;
    beyond the limit it raises. *)
Lemma int_numeric_literal (a : string) :
  numeric a -> Py.int a = Py.literal a.
Proof.
  intros [Hne Hall]. destruct a as [|c s]; [contradiction|].
  pose proof Hall as Hall'. cbn in Hall'.
  destruct (Py.digit_value c) as [d|] eqn:Hd; [|discriminate].
  destruct (digit_not_special c d Hd) as (Hsp & _ & Hm & Hp).
  unfold Py.int. cbn [Py.lstrip]. rewrite Hsp.
  rewrite (rstrip_digits _ Hall).
  destruct c as [b0 b1 b2 b3 b4 b5 b6 b7].
  destruct b0, b1, b2, b3, b4, b5, b6, b7; try reflexivity;
    exfalso; (now apply Hm) || (now apply Hp).
Qed.

Lemma int_numeric (a : string) :
  numeric a -> Z.of_nat (String.length a) <= 4300 ->
  Py.int a = Some (decimal a 0).
Proof.
  intros Hnum Hlen. rewrite (int_numeric_literal a Hnum).
  destruct Hnum as [Hne Hall]. unfold Py.literal, Py.max_str_digits.
  rewrite (count_digits_all a Hall).
  destruct (Z.leb_spec (Z.of_nat (String.length a)) 4300); [|lia].
  now apply digits_all; [|left].
Qed.

Lemma int_numeric_too_long (a : string) :
  numeric a -> 4300 < Z.of_nat (String.length a) -> Py.int a = None.
Proof.
  intros Hnum Hlen. rewrite (int_numeric_literal a Hnum).
  destruct Hnum as [Hne Hall]. unfold Py.literal, Py.max_str_digits.
  rewrite (count_digits_all a Hall).
  destruct (Z.leb_spec (Z.of_nat (String.length a)) 4300); [lia|].
  reflexivity.
Qed.

Lemma split_numeric_prefix (a b : string) :
  all_digits a = true ->
  Py.split "_" (a ++ String "_" b) = a :: Py.split "_" b.
Proof.
  induction a as [|c a IH]; cbn; [reflexivity|]. intros Hall.
  destruct (Py.digit_value c) as [d|] eqn:Hd; [|discriminate].
  destruct (digit_not_special c d Hd) as (_ & -> & _).
  now rewrite (IH Hall).
Qed.

Lemma all_digits_underscore (a b : string) :
  all_digits (a ++ String "_" b) = false.
Proof.
  induction a as [|c a IH]; cbn; [reflexivity|].
  now destruct (Py.digit_value c).
Qed.

Lemma segmented_key_segment (a b value : string) :
  numeric a ->
  let key := ("question_" ++ a ++ String "_" b)%string in
  is_question_key (key, value) = true
  /\ item_segment (key, value) = Some a.
Proof.
  intros Hnum key.
  assert (Hk : is_question_key (key, value) = true).
  { unfold is_question_key, Py.startswith, key. cbn.
    now destruct (a ++ String "_" b)%string. }
  split; [exact Hk|].
  destruct (question_key_segment (key, value) Hk) as (rest & E & Hs).
  rewrite Hs. unfold key in E. cbn in E. injection E as <-.
  rewrite split_numeric_prefix by apply Hnum. reflexivity.
Qed.

Lemma segmented_key_qid (a b value : string) :
  numeric a -> Z.of_nat (String.length a) <= 4300 ->
  let key := ("question_" ++ a ++ String "_" b)%string in
  is_question_key (key, value) = true
  /\ item_segment (key, value) = Some a
  /\ item_qid (key, value) = Some (decimal a 0).
Proof.
  intros Hnum Hlen key.
  destruct (segmented_key_segment a b value Hnum) as [Hk Hs]. fold key in Hk, Hs.
  split; [exact Hk|]. split; [exact Hs|].
  unfold item_qid. rewrite Hs. now apply int_numeric.
Qed.

(** The row a submitted item ends up as. *)
Lemma submit_field_row (form : form_data) (name : string) (db : database)
      (kv : string * string) (qid : Z) :
  form_get form "name" = Some name -> name <> EmptyString ->
  all_parse (form_items form) -> all_storable (form_items form) ->
  In kv (form_items form) -> is_question_key kv = true ->
  item_qid kv = Some qid ->
  exists row rows,
    answers (db_after (serve (PostSubmit form) db)) = answers db ++ rows
    /\ In row rows
    /\ Answer.user_id row = User.id (fst (ensure_user name db))
    /\ Answer.question_id row = qid
    /\ Answer.answer_text row = snd kv.
Proof.
  intros Hname Hne Hall Hst Hin Hk Hq.
  destruct (submit_answers_rows form name db Hname Hne Hall Hst)
    as (_ & _ & _ & _ & _ & rows & E & _ & HF).
  destruct (Forall2_pick _ _ _ kv HF) as (row & Hrow & Hu & Hq' & Ht).
  { apply filter_In. now split. }
  exists row, rows. rewrite Hq in Hq'. injection Hq' as Hq'.
  now repeat split.
Qed.

(** C10, as stated, fails in two ways.  For a numeric segment whose value
    does not fit the column the handler raises at its commit; for a
    numeric segment of more than 4300 digits (here 4300 zeros before a 5)
    [int] raises.  Either key has the claimed shape, and no answer row is
    created. *)
Lemma submit_segmented_key_crashes :
  (let form := [("name", "Ann");
                ("question_9223372036854775808_extra", "x")] in
   numeric "9223372036854775808"
   /\ result (serve (PostSubmit form) empty_db) = Raise OverflowError
   /\ answers (db_after (serve (PostSubmit form) empty_db)) = [])
  /\ (let a := (String.concat "" (repeat "0" 4300) ++ "5")%string in
      let form := [("name", "Ann");
                   (("question_" ++ a ++ "_extra")%string, "x")] in
      numeric a
      /\ decimal a 0 = 5
      /\ result (serve (PostSubmit form) empty_db) = Raise ValueError
      /\ answers (db_after (serve (PostSubmit form) empty_db)) = []).
Proof.
  split.
  - intros form. split; [split; [discriminate | reflexivity]|].
    split; vm_compute; reflexivity.
  - intros a form. split.
    + split; [vm_compute; discriminate | vm_compute; reflexivity].
    + split; [vm_compute; reflexivity|].
      split; vm_compute; reflexivity.
Qed.

(** C10 (amended): for a key [question_<a>_<b>] with [<a>] numeric, of at
    most 4300 digits, the id is read from the segment between the first
    and the second underscore alone: the segment is [<a>] and parses to
    its decimal value although the suffix [<a>_<b>] is no string of
    digits; when that value, like the other parsed ids of the form, lies
    in the signed 64-bit range, a submit request with a non-empty name
    whose form ends the key's fields with the value [value] (its question
    keys all parsing) returns the thank-you page and appends an answer row
    with question id [<a>], the user's id and that value. *)
Theorem submit_segmented_key_uses_first_segment
        (form : form_data) (name : string) (db : database)
        (a b value : string) :
  numeric a -> Z.of_nat (String.length a) <= 4300 ->
  let key := ("question_" ++ a ++ String "_" b)%string in
  form_get form "name" = Some name -> name <> EmptyString ->
  all_parse form -> all_storable form ->
  last_field form (key, value) ->
  item_segment (key, value) = Some a
  /\ item_qid (key, value) = Some (decimal a 0)
  /\ all_digits (a ++ String "_" b) = false
  /\ result (serve (PostSubmit form) db)
     = Return (TemplateResponse "thankyou.html" (CtxThankyou name))
  /\ exists row rows,
       answers (db_after (serve (PostSubmit form) db)) = answers db ++ rows
       /\ In row rows
       /\ Answer.user_id row = User.id (fst (ensure_user name db))
       /\ Answer.question_id row = decimal a 0
       /\ Answer.answer_text row = value.
Proof.
  intros Hnum Hlen key Hname Hne Hall Hst Hlast.
  destruct (segmented_key_qid a b value Hnum Hlen) as (Hk & Hs & Hq).
  fold key in Hk, Hs, Hq.
  pose proof (all_parse_items form Hall) as Hall'.
  pose proof (all_storable_items form Hst) as Hst'.
  pose proof (last_field_item form (key, value) Hlast) as Hin.
  split; [exact Hs|]. split; [exact Hq|].
  split; [apply all_digits_underscore|].
  split; [apply (submit_answers_rows form name db Hname Hne Hall' Hst')|].
  exact (submit_field_row form name db (key, value) (decimal a 0)
           Hname Hne Hall' Hst' Hin Hk Hq).
Qed.

Lemma submit_segmented_key_uses_first_segment_witness :
  let form := [("name", "Ann"); ("question_5_extra", "x")] in
  numeric "5"
  /\ all_parse form /\ all_storable form
  /\ last_field form ("question_5_extra", "x")
  /\ result (serve (PostSubmit form) empty_db)
     = Return (TemplateResponse "thankyou.html" (CtxThankyou "Ann"))
  /\ exists row rows,
       answers (db_after (serve (PostSubmit form) empty_db))
       = answers empty_db ++ rows
       /\ In row rows
       /\ Answer.question_id row = 5.
Proof.
  intros form.
  assert (Hnum : numeric "5") by (split; [discriminate | reflexivity]).
  assert (Hlen : Z.of_nat (String.length "5") <= 4300) by (cbn; lia).
  assert (Hall : all_parse form).
  { intros kv [<-|[<-|[]]] Hk; vm_compute in Hk |- *; discriminate. }
  assert (Hst : all_storable form).
  { intros kv qid [<-|[<-|[]]] Hk Hq; vm_compute in Hk, Hq;
      try discriminate; injection Hq as <-; reflexivity. }
  assert (Hlast : last_field form ("question_5_extra", "x")).
  { exists [("name", "Ann")], []. split; [reflexivity | intros []]. }
  split; [exact Hnum|]. split; [exact Hall|]. split; [exact Hst|].
  split; [exact Hlast|].
  destruct (submit_segmented_key_uses_first_segment form "Ann" empty_db
              "5" "extra" "x" Hnum Hlen eq_refl) as
    (_ & _ & _ & R & row & rows & E & Hin & _ & Hq & _);
    [discriminate | exact Hall | exact Hst | exact Hlast |].
  split; [exact R|]. exists row, rows. now repeat split.
Defined.

(** * What a request can do to the tables *)

Lemma extends_refl (d : database) : extends d d.
Proof.
  repeat split.
  - exists []. now rewrite app_nil_r.
  - exists []. rewrite app_nil_r. split; [reflexivity | intros a []].
Qed.

Lemma extends_trans (d1 d2 d3 : database) :
  extends d1 d2 -> extends d2 d3 -> extends d1 d3.
Proof.
  intros ([us1 U1] & Q1 & rows1 & A1 & O1) ([us2 U2] & Q2 & rows2 & A2 & O2).
  repeat split.
  - exists (us1 ++ us2). now rewrite U2, U1, app_assoc.
  - now rewrite Q2.
  - exists (rows1 ++ rows2). split; [now rewrite A2, A1, app_assoc|].
    intros a Hin. apply in_app_or in Hin. destruct Hin as [Hin|Hin].
    + rewrite U2, map_app. apply in_or_app. left. now apply O1.
    + now apply O2.
Qed.

Lemma ensure_user_extends (name : string) (db : database) :
  extends db (snd (ensure_user name db)).
Proof.
  destruct (ensure_user_keeps name db) as (Q & A & us & U).
  repeat split; [now exists us | exact Q |].
  exists []. rewrite app_nil_r. split; [exact A | intros a []].
Qed.

(** The three ways a submit with a non-empty name ends: with the answers
    stored, on a key that does not parse, or at the commit on an id that
    does not fit the column; the user is ensured in each. *)
Lemma submit_cases (form : form_data) (name : string) (db : database) :
  form_get form "name" = Some name -> name <> EmptyString ->
  (all_parse (form_items form) /\ all_storable (form_items form)
   /\ result (serve (PostSubmit form) db)
      = Return (TemplateResponse "thankyou.html" (CtxThankyou name))
   /\ db_after (serve (PostSubmit form) db)
      = insert_objects
          (form_answers (User.id (fst (ensure_user name db)))
             (form_items form))
          (snd (ensure_user name db)))
  \/ ((exists kv, In kv (form_items form) /\ is_question_key kv = true
                  /\ item_qid kv = None)
      /\ result (serve (PostSubmit form) db) = Raise ValueError
      /\ db_after (serve (PostSubmit form) db) = snd (ensure_user name db))
  \/ ((exists kv qid, In kv (form_items form) /\ is_question_key kv = true
                      /\ item_qid kv = Some qid /\ in_int64 qid = false)
      /\ result (serve (PostSubmit form) db) = Raise OverflowError
      /\ db_after (serve (PostSubmit form) db) = snd (ensure_user name db)).
Proof.
  intros Hname Hne.
  destruct (all_parse_or_not (form_items form)) as [Hall|(kv & Hin & Hk & Hq)].
  - destruct (all_storable_or_not (form_items form))
      as [Hst|(kv & qid & Hin & Hk & Hq & Hfit)].
    + left. split; [exact Hall|]. split; [exact Hst|].
      exact (submit_answers_run form name db Hname Hne Hall Hst).
    + right. right. split; [now exists kv, qid|].
      exact (submit_answers_overflow form name db kv qid Hname Hne Hall
               Hin Hk Hq Hfit).
  - right. left. split; [now exists kv|].
    exact (submit_answers_raises form name db kv Hname Hne Hin Hk Hq).
Qed.

Lemma results_db_after (code : string) (db : database) :
  db_after (serve (PostResults code) db) = db.
Proof.
  destruct code as [|c code]; [reflexivity|].
  destruct (String.eqb_spec (String c code) "072823") as [E|Hne].
  - rewrite E. apply (view_results_right_code db).
  - now rewrite (view_results_wrong_code _ db).
Qed.

Lemma submit_extends (form : form_data) (db : database) :
  extends db (db_after (serve (PostSubmit form) db))
  /\ (names_unique db -> names_unique (db_after (serve (PostSubmit form) db))).
Proof.
  destruct (Py.truthy (form_get form "name")) eqn:Ht.
  - destruct (form_get form "name") as [name|] eqn:Hname; [|discriminate].
    assert (Hne : name <> EmptyString) by (intros ->; discriminate).
    destruct (submit_cases form name db Hname Hne)
      as [(Hall & Hst & _)|[(_ & _ & D)|(_ & _ & D)]].
    + destruct (submit_answers_rows form name db Hname Hne Hall Hst)
        as (_ & _ & Hu & U & Q & rows & A & _ & HF).
      split.
      * eapply extends_trans; [apply (ensure_user_extends name db)|].
        destruct (ensure_user_keeps name db) as (Q' & A' & _).
        repeat split.
        -- exists []. now rewrite app_nil_r.
        -- now rewrite Q, Q'.
        -- exists rows. rewrite A'. split; [exact A|].
           intros a Ha.
           destruct (Forall2_pick_r _ _ _ a HF Ha) as (kv & _ & Hid & _).
           rewrite Hid. now apply in_map.
      * intros Hnd. unfold names_unique. rewrite U.
        now apply ensure_user_names_unique.
    + rewrite D. split; [apply ensure_user_extends|].
      apply ensure_user_names_unique.
    + rewrite D. split; [apply ensure_user_extends|].
      apply ensure_user_names_unique.
  - rewrite (submit_answers_redirect form db Ht). cbn.
    split; [apply extends_refl | auto].
Qed.

Lemma serve_extends (r : request) (db : database) :
  extends db (db_after (serve r db))
  /\ (names_unique db -> names_unique (db_after (serve r db))).
Proof.
  destruct r as [|name|form| |code].
  - split; [apply extends_refl | auto].
  - destruct (questions_db_after name db) as [D|D]; rewrite D.
    + split; [apply extends_refl | auto].
    + split; [apply ensure_user_extends | apply ensure_user_names_unique].
  - apply submit_extends.
  - split; [apply extends_refl | auto].
  - rewrite results_db_after. split; [apply extends_refl | auto].
Qed.

Lemma extends_owned (d d' : database) :
  extends d d' -> answers_owned d -> answers_owned d'.
Proof.
  intros ([us U] & _ & rows & A & O) Hown a Hin.
  rewrite A in Hin. apply in_app_or in Hin. destruct Hin as [Hin|Hin].
  - rewrite U, map_app. apply in_or_app. left. now apply Hown.
  - now apply O.
Qed.

Lemma serve_all_extends (rs : list request) (db : database) :
  extends db (serve_all rs db)
  /\ (names_unique db -> names_unique (serve_all rs db)).
Proof.
  revert db. induction rs as [|r rs IH]; intros db; cbn.
  - split; [apply extends_refl | auto].
  - destruct (serve_extends r db) as [E1 N1].
    destruct (IH (db_after (serve r db))) as [E2 N2].
    split; [eapply extends_trans; eassumption | auto].
Qed.

(** * Invariants *)

Lemma reachable_invariants (d : database) :
  reachable d -> names_unique d /\ answers_owned d.
Proof.
  induction 1 as [|d Hd [IH1 IH2]|d r Hd [IH1 IH2]].
  - split; [constructor | intros a []].
  - rewrite startup_run. cbn. split; [exact IH1 | exact IH2].
  - destruct (serve_extends r d) as [E N].
    split; [now apply N | now apply (extends_owned d)].
Qed.

(** C7, as stated, fails in its last part for a parsed id that does not
    fit the column: the id below matches no question, yet the submit
    raises at its commit and no answer row with that id is created. *)
Lemma submit_unknown_question_overflow_no_row :
  let db := db_after (startup empty_db) in
  let form := [("name", "Ann"); ("question_9223372036854775808", "x")] in
  item_qid ("question_9223372036854775808", "x") = Some 9223372036854775808
  /\ ~ question_exists 9223372036854775808 db
  /\ ~ (exists row,
          In row (answers (db_after (serve (PostSubmit form) db)))
          /\ Answer.question_id row = 9223372036854775808).
Proof.
  intros db form. split; [reflexivity|]. split.
  - unfold db. rewrite startup_run. vm_compute. intros H.
    repeat (destruct H as [H|H]; [discriminate H|]). exact H.
  - intros (row & Hin & _). vm_compute in Hin. exact Hin.
Qed.

(** C7 (amended): from tables with unique user names in which every answer
    carries the id of an existing user, every request, and every sequence
    of requests, leaves tables with both properties; users and answers are
    only appended, never removed, and each appended answer carries the id
    of a user present in the resulting table.  The question id is not
    checked against the questions table: in a form whose question keys
    all parse to ids of the signed 64-bit range, a field (the last of its
    key) whose parsed id is the id of no question still appends an answer
    row with that id; a parsed id outside that range makes the commit
    raise [OverflowError] and no answer of the request is stored. *)
Theorem handlers_keep_user_references
        (rs : list request) (db : database) :
  names_unique db -> answers_owned db ->
  (forall r,
      names_unique (db_after (serve r db))
      /\ answers_owned (db_after (serve r db))
      /\ extends db (db_after (serve r db)))
  /\ (names_unique (serve_all rs db)
      /\ answers_owned (serve_all rs db)
      /\ extends db (serve_all rs db))
  /\ (forall form name kv qid,
         form_get form "name" = Some name -> name <> EmptyString ->
         all_parse form -> all_storable form ->
         last_field form kv -> is_question_key kv = true ->
         item_qid kv = Some qid ->
         ~ question_exists qid db ->
         exists row rows,
           answers (db_after (serve (PostSubmit form) db))
           = answers db ++ rows
           /\ In row rows
           /\ Answer.question_id row = qid
           /\ ~ question_exists qid (db_after (serve (PostSubmit form) db)))
  /\ (forall form name kv qid,
         form_get form "name" = Some name -> name <> EmptyString ->
         all_parse form ->
         In kv form -> is_question_key kv = true ->
         item_qid kv = Some qid -> in_int64 qid = false ->
         result (serve (PostSubmit form) db) = Raise OverflowError
         /\ answers (db_after (serve (PostSubmit form) db)) = answers db).
Proof.
  intros Hnd Hown. split; [|split; [|split]].
  - intros r. destruct (serve_extends r db) as [E N].
    split; [now apply N|]. split; [now apply (extends_owned db) | exact E].
  - destruct (serve_all_extends rs db) as [E N].
    split; [now apply N|]. split; [now apply (extends_owned db) | exact E].
  - intros form name kv qid Hname Hne Hall Hst Hlast Hk Hq Hno.
    destruct (submit_field_row form name db kv qid Hname Hne
                (all_parse_items form Hall) (all_storable_items form Hst)
                (last_field_item form kv Hlast) Hk Hq)
      as (row & rows & A & Hrow & _ & Hqid & _).
    exists row, rows. split; [exact A|]. split; [exact Hrow|].
    split; [exact Hqid|].
    destruct (submit_extends form db) as [(_ & Q & _) _].
    unfold question_exists. now rewrite Q.
  - intros form name kv qid Hname Hne Hall Hin Hk Hq Hfit.
    assert (Hitem : exists kv', In kv' (form_items form)
                                /\ fst kv' = fst kv).
    { assert (Hkey : In (fst kv) (map fst (form_items form))).
      { apply form_items_keys. now apply in_map. }
      apply in_map_iff in Hkey. destruct Hkey as (kv' & E & Hin').
      now exists kv'. }
    destruct Hitem as ([k' v'] & Hin' & E). destruct kv as [k v].
    cbn [fst] in E. subst k'.
    destruct (submit_answers_overflow form name db (k, v') qid Hname Hne
                (all_parse_items form Hall) Hin' Hk Hq Hfit) as [R D].
    split; [exact R|]. rewrite D. apply ensure_user_keeps.
Qed.

Lemma handlers_keep_user_references_witness :
  let db := db_after (startup empty_db) in
  let form := [("name", "Ann"); ("question_999", "x")] in
  names_unique db /\ answers_owned db
  /\ all_parse form /\ all_storable form
  /\ last_field form ("question_999", "x")
  /\ names_unique (db_after (serve (PostSubmit form) db))
  /\ answers_owned (db_after (serve (PostSubmit form) db))
  /\ exists row rows,
       answers (db_after (serve (PostSubmit form) db)) = answers db ++ rows
       /\ In row rows
       /\ Answer.question_id row = 999
       /\ ~ question_exists 999 (db_after (serve (PostSubmit form) db)).
Proof.
  intros db form.
  assert (H3 : all_parse form).
  { intros kv [<-|[<-|[]]] Hk; vm_compute in Hk |- *; discriminate. }
  assert (H4 : all_storable form).
  { intros kv qid [<-|[<-|[]]] Hk Hq; vm_compute in Hk, Hq;
      [discriminate Hk|]. injection Hq as <-. reflexivity. }
  assert (H5 : last_field form ("question_999", "x")).
  { exists [("name", "Ann")], []. split; [reflexivity | intros []]. }
  assert (H1 : names_unique db) by (vm_compute; constructor).
  assert (H2 : answers_owned db).
  { unfold db. rewrite startup_run. intros a Ha. destruct Ha. }
  destruct (handlers_keep_user_references [] db H1 H2) as (S1 & _ & S3 & _).
  destruct (S1 (PostSubmit form)) as (N & O & _).
  split; [exact H1|]. split; [exact H2|]. split; [exact H3|].
  split; [exact H4|]. split; [exact H5|]. split; [exact N|].
  split; [exact O|].
  apply (S3 form "Ann" ("question_999", "x") 999).
  - reflexivity.
  - discriminate.
  - exact H3.
  - exact H4.
  - exact H5.
  - reflexivity.
  - reflexivity.
  - unfold db. rewrite startup_run. vm_compute. intros H.
    repeat (destruct H as [H|H]; [discriminate H|]). exact H.
Defined.

(** * Round trip *)

(** C6, as stated, fails in two ways.  A text sent in a field whose key
    comes again later in the form is not stored: the first submit below
    completes, question 1 exists and the results view is returned, yet the
    text [x] is nowhere in it.  And a text sent in a submit that does not
    complete is not stored: the second submit below raises at its commit
    on the id of its last field, and the text [foo], sent for the existing
    question 2, is nowhere in the results view. *)
Lemma submitted_text_not_always_shown :
  let db := db_after (startup empty_db) in
  (let form := [("name", "Alice"); ("question_1", "x"); ("question_1", "y")] in
   let db1 := db_after (serve (PostSubmit form) db) in
   In ("question_1", "x") form
   /\ item_qid ("question_1", "x") = Some 1
   /\ question_exists 1 db
   /\ result (serve (PostSubmit form) db)
      = Return (TemplateResponse "thankyou.html" (CtxThankyou "Alice"))
   /\ exists data,
        result (serve (PostResults "072823") db1)
        = Return (TemplateResponse "results.html" (CtxResults data))
        /\ ~ (exists e a, In e data /\ In a (re_answers e)
                          /\ ra_answer a = "x"))
  /\ (let form := [("name", "Alice"); ("question_2", "foo");
                   ("question_9223372036854775808", "x")] in
      let db1 := db_after (serve (PostSubmit form) db) in
      In ("question_2", "foo") form
      /\ item_qid ("question_2", "foo") = Some 2
      /\ question_exists 2 db
      /\ result (serve (PostSubmit form) db) = Raise OverflowError
      /\ exists data,
           result (serve (PostResults "072823") db1)
           = Return (TemplateResponse "results.html" (CtxResults data))
           /\ ~ (exists e a, In e data /\ In a (re_answers e)
                             /\ ra_answer a = "foo")).
Proof.
  intros db. split.
  - intros form db1. split; [right; now left|]. split; [reflexivity|].
    split; [unfold db; rewrite startup_run; now left|].
    split; [vm_compute; reflexivity|].
    exists [mkResultEntry "Alice"
              [mkResultAnswer "What is your email address?" "y"]].
    split; [vm_compute; reflexivity|].
    intros (e & a & [<-|[]] & [<-|[]] & E). discriminate E.
  - intros form db1. split; [right; now left|]. split; [reflexivity|].
    split; [unfold db; rewrite startup_run; right; now left|].
    split; [vm_compute; reflexivity|].
    exists [mkResultEntry "Alice" []].
    split; [vm_compute; reflexivity|].
    intros (e & a & [<-|[]] & [] & _).
Qed.

(** C6 (amended): after a submit request that completes (a non-empty name,
    question keys that all parse to ids of the signed 64-bit range), the
    value of each question field that is the last field of its key is
    shown as it was sent, as an answer of the entry that bears the
    submitted name and under the text of the question with the field's id
    (a question of the table, since the view was built), by every later
    results request that returns the results view, whatever requests were
    served in between; the results request does return the view whenever
    every stored answer's question exists. *)
Theorem submitted_answer_shown_verbatim
        (form : form_data) (name : string) (db : database)
        (kv : string * string) (qid : Z) (rs : list request) :
  form_get form "name" = Some name -> name <> EmptyString ->
  all_parse form -> all_storable form ->
  last_field form kv -> is_question_key kv = true ->
  item_qid kv = Some qid ->
  let db1 := db_after (serve (PostSubmit form) db) in
  let db2 := serve_all rs db1 in
  (forall data,
      result (serve (PostResults "072823") db2)
      = Return (TemplateResponse "results.html" (CtxResults data)) ->
      exists e q,
        In e data /\ re_name e = name
        /\ In q (questions db) /\ Question.id q = qid
        /\ In (mkResultAnswer (Question.text q) (snd kv)) (re_answers e))
  /\ (questions_resolve db2 ->
      exists data,
        result (serve (PostResults "072823") db2)
        = Return (TemplateResponse "results.html" (CtxResults data))).
Proof.
  intros Hname Hne Hall0 Hst0 Hlast Hk Hq db1 db2.
  pose proof (all_parse_items form Hall0) as Hall.
  pose proof (all_storable_items form Hst0) as Hst.
  pose proof (last_field_item form kv Hlast) as Hin.
  destruct (view_results_right_code db2) as (_ & R & T). cbn zeta in R, T.
  split; [|exact T]. intros data E.
  destruct (R _ E) as (data' & E' & HF). injection E' as <-.
  set (u := fst (ensure_user name db)).
  destruct (submit_field_row form name db kv qid Hname Hne Hall Hst Hin Hk
              Hq)
    as (row & rows & A & Hrow & Huid & Hqid & Htext).
  fold db1 in A. fold u in Huid.
  destruct (submit_answers_rows form name db Hname Hne Hall Hst)
    as (_ & Hun & Hu & _ & Q1 & _).
  fold u in Hun, Hu. fold db1 in Hu, Q1.
  destruct (serve_all_extends rs db1) as [([us U] & Q2 & rows2 & A2 & _) _].
  fold db2 in U, Q2, A2.
  assert (Hu2 : In u (users db2)).
  { rewrite U. apply in_or_app. now left. }
  assert (Hrow2 : In row (answers_of db2 u)).
  { unfold answers_of. apply filter_In. split.
    - rewrite A2, A. apply in_or_app. left. apply in_or_app. now right.
    - rewrite Huid. apply Z.eqb_refl. }
  destruct (Forall2_pick _ _ _ u HF Hu2) as (e & He & Hename & Hans).
  destruct (Forall2_pick _ _ _ row Hans Hrow2) as (y & Hy & q & Hfind & ->).
  unfold question_of in Hfind. apply find_some in Hfind.
  destruct Hfind as [Hq_in Hq_id]. apply Z.eqb_eq in Hq_id.
  exists e, q. split; [exact He|]. split; [now rewrite Hename|].
  split; [now rewrite <- Q1, <- Q2|]. split; [now rewrite Hq_id|].
  now rewrite <- Htext.
Qed.

Lemma submitted_answer_shown_verbatim_witness :
  let db := db_after (startup empty_db) in
  let form := [("name", "Alice"); ("question_2", " foo <b> ")] in
  let db2 :=
    serve_all [PostQuestions "Bob"] (db_after (serve (PostSubmit form) db)) in
  form_get form "name" = Some "Alice"
  /\ all_parse form /\ all_storable form
  /\ last_field form ("question_2", " foo <b> ")
  /\ (exists data,
        result (serve (PostResults "072823") db2)
        = Return (TemplateResponse "results.html" (CtxResults data)))
  /\ forall data,
       result (serve (PostResults "072823") db2)
       = Return (TemplateResponse "results.html" (CtxResults data)) ->
       exists e q,
         In e data /\ re_name e = "Alice"
         /\ In q (questions db) /\ Question.id q = 2
         /\ In (mkResultAnswer (Question.text q) " foo <b> ") (re_answers e).
Proof.
  intros db form db2.
  assert (H1 : form_get form "name" = Some "Alice") by reflexivity.
  assert (H2 : "Alice" <> EmptyString) by discriminate.
  assert (H3 : all_parse form).
  { intros kv [<-|[<-|[]]] Hk; vm_compute in Hk |- *; discriminate. }
  assert (H4 : all_storable form).
  { intros kv qid [<-|[<-|[]]] Hk Hq; vm_compute in Hk, Hq;
      [discriminate Hk|]. injection Hq as <-. reflexivity. }
  assert (H5 : last_field form ("question_2", " foo <b> ")).
  { exists [("name", "Alice")], []. split; [reflexivity | intros []]. }
  split; [exact H1|]. split; [exact H3|]. split; [exact H4|].
  split; [exact H5|]. split.
  - eexists. vm_compute. reflexivity.
  - exact (proj1 (submitted_answer_shown_verbatim form "Alice" db
                    ("question_2", " foo <b> ") 2 [PostQuestions "Bob"]
                    H1 H2 H3 H4 H5 eq_refl eq_refl)).
Defined.

(** * Further properties of the results handler *)

Lemma view_results_unfold (db : database) :
  view_results "072823" (open_session db)
  = match comprehension (users db) user_record
            (mkSession db db [] [] 0%nat [EvSelect Users]) with
    | (Return data, s') =>
        (Return (TemplateResponse "results.html" (CtxResults data)), s')
    | (Raise e, s') => (Raise e, s')
    end.
Proof. reflexivity. Qed.

(** A comprehension raises only what its body raises. *)
Section ComprehensionRaise.
Context {A B : Type}.
Variable f : A -> M B.
Variable e0 : exn.
Hypothesis f_raise : forall x s e, fst (f x s) = Raise e -> e = e0.

Lemma comprehension_raise (xs : list A) (s : session) (e : exn) :
  fst (comprehension xs f s) = Raise e -> e = e0.
Proof.
  revert s. induction xs as [|x xs IH]; intros s; cbn [comprehension].
  - cbn. discriminate.
  - unfold bind. pose proof (f_raise x s) as Hx.
    destruct (f x s) as [[y|e1] s1]; cbn [fst] in *.
    + pose proof (IH s1) as Hxs.
      destruct (comprehension xs f s1) as [[ys|e2] s2]; cbn [fst] in *.
      * cbn. discriminate.
      * exact Hxs.
    + intros E. injection E as <-. now apply Hx.
Qed.
End ComprehensionRaise.

(** A comprehension whose body only issues SELECTs only issues SELECTs. *)
Section ComprehensionLog.
Context {A B : Type}.
Variable f : A -> M B.
Hypothesis f_log :
  forall x s, exists l, log (snd (f x s)) = log s ++ l
                        /\ forallb is_select l = true.

Lemma comprehension_log (xs : list A) (s : session) :
  exists l, log (snd (comprehension xs f s)) = log s ++ l
            /\ forallb is_select l = true.
Proof.
  revert s. induction xs as [|x xs IH]; intros s; cbn [comprehension].
  - exists []. cbn. now rewrite app_nil_r.
  - unfold bind. destruct (f_log x s) as (l1 & L1 & S1).
    destruct (f x s) as [[y|e1] s1]; cbn [snd] in *.
    + destruct (IH s1) as (l2 & L2 & S2).
      destruct (comprehension xs f s1) as [[ys|e2] s2]; cbn in L2 |- *;
        exists (l1 ++ l2); rewrite L2, L1, app_assoc, forallb_app, S1, S2;
        now split.
    + exists l1. now split.
Qed.
End ComprehensionLog.

Lemma answer_record_raise (a : Answer.t) (s : session) (e : exn) :
  fst (answer_record a s) = Raise e -> e = AttributeError.
Proof.
  rewrite answer_record_run. cbn [fst].
  destruct (question_of (txn s) a); [discriminate|].
  intros E. now injection E as <-.
Qed.

Lemma answer_record_log (a : Answer.t) (s : session) :
  exists l, log (snd (answer_record a s)) = log s ++ l
            /\ forallb is_select l = true.
Proof.
  rewrite answer_record_run. exists [EvSelect Questions]. now split.
Qed.

Lemma user_record_unfold (u : User.t) (s : session) :
  user_record u s
  = match comprehension (answers_of (txn s) u) answer_record
            (logged s [EvSelect Answers]) with
    | (Return ys, s') => (Return (mkResultEntry (User.name u) ys), s')
    | (Raise e, s') => (Raise e, s')
    end.
Proof. reflexivity. Qed.

Lemma user_record_raise (u : User.t) (s : session) (e : exn) :
  fst (user_record u s) = Raise e -> e = AttributeError.
Proof.
  rewrite user_record_unfold.
  pose proof (comprehension_raise answer_record AttributeError
                answer_record_raise (answers_of (txn s) u)
                (logged s [EvSelect Answers]) e) as H.
  destruct (comprehension _ _ _) as [[ys|e1] s1]; cbn [fst] in *;
    [discriminate|].
  intros E. injection E as <-. now apply H.
Qed.

Lemma user_record_log (u : User.t) (s : session) :
  exists l, log (snd (user_record u s)) = log s ++ l
            /\ forallb is_select l = true.
Proof.
  rewrite user_record_unfold.
  destruct (comprehension_log answer_record answer_record_log
              (answers_of (txn s) u) (logged s [EvSelect Answers]))
    as (l & L & S).
  cbn [log logged] in L.
  destruct (comprehension _ _ _) as [[ys|e1] s1]; cbn [snd] in *;
    exists (EvSelect Answers :: l); rewrite L, <- app_assoc; now split.
Qed.

Lemma view_results_listed (db : database) :
  listed_resolve db ->
  exists data,
    result (serve (PostResults "072823") db)
    = Return (TemplateResponse "results.html" (CtxResults data))
    /\ Forall2 (entry_for db) (users db) data.
Proof.
  intros Hres.
  destruct (view_results_right_code db) as (_ & R & _). cbn zeta in R.
  assert (E : exists r, result (serve (PostResults "072823") db) = Return r).
  { unfold serve, in_session, handler. cbn [required_form].
    rewrite view_results_unfold.
    destruct (comprehension_reads user_record entry_for
                (fun d u => forall a, In a (answers_of d u) ->
                                      question_of d a <> None)
                user_record_reads (users db)
                (mkSession db db [] [] 0%nat [EvSelect Users]))
      as (_ & _ & _ & H4).
    cbn [txn] in H4. destruct H4 as [ys E].
    { intros u Hu a Ha. exact (Hres u a Hu Ha). }
    destruct (comprehension _ _ _) as [[ys'|e] s1]; cbn [fst] in E;
      [|discriminate]. eexists. reflexivity. }
  destruct E as [r E]. destruct (R r E) as (data & -> & HF).
  exists data. now split.
Qed.

Lemma view_results_raise_kind (db : database) (e : exn) :
  result (serve (PostResults "072823") db) = Raise e -> e = AttributeError.
Proof.
  unfold serve, in_session, handler. cbn [required_form].
    rewrite view_results_unfold.
  pose proof (comprehension_raise user_record AttributeError
                user_record_raise (users db)
                (mkSession db db [] [] 0%nat [EvSelect Users]) e) as H.
  destruct (comprehension _ _ _) as [[ys|e1] s1]; cbn [fst result] in *;
    [discriminate|].
  intros E. injection E as <-. now apply H.
Qed.

(** The results handler returns the results view exactly when every answer
    of every listed user points at an existing question. *)
Theorem view_results_returns_iff_listed_resolve (db : database) :
  (exists data,
      result (serve (PostResults "072823") db)
      = Return (TemplateResponse "results.html" (CtxResults data)))
  <-> listed_resolve db.
Proof.
  split.
  - intros [data E] u a Hu Ha Hq.
    exact (view_results_orphan_no_view db u a Hu Ha Hq _ E).
  - intros Hres. destruct (view_results_listed db Hres) as (data & E & _).
    now exists data.
Qed.

(** When some listed user has an answer whose question is missing, the
    results handler called with the right code raises [AttributeError],
    whatever else the tables hold. *)
Theorem view_results_orphan_raises_AttributeError
        (db : database) (u : User.t) (a : Answer.t) :
  In u (users db) -> In a (answers_of db u) -> question_of db a = None ->
  result (serve (PostResults "072823") db) = Raise AttributeError.
Proof.
  intros Hu Ha Hq.
  destruct (result (serve (PostResults "072823") db)) as [r|e] eqn:E.
  - exfalso. exact (view_results_orphan_no_view db u a Hu Ha Hq r E).
  - now rewrite (view_results_raise_kind db e E).
Qed.

Lemma view_results_orphan_raises_AttributeError_witness :
  let db := mkDatabase [User.mk 1 "Ann"; User.mk 2 "Bob"] seeded_questions
              [Answer.mk 1 "x" 1 3; Answer.mk 2 "y" 2 11] in
  In (User.mk 2 "Bob") (users db)
  /\ In (Answer.mk 2 "y" 2 11) (answers_of db (User.mk 2 "Bob"))
  /\ question_of db (Answer.mk 2 "y" 2 11) = None
  /\ result (serve (PostResults "072823") db) = Raise AttributeError.
Proof.
  intros db.
  assert (H1 : In (User.mk 2 "Bob") (users db)) by (right; now left).
  assert (H2 : In (Answer.mk 2 "y" 2 11) (answers_of db (User.mk 2 "Bob")))
    by (now left).
  assert (H3 : question_of db (Answer.mk 2 "y" 2 11) = None) by reflexivity.
  split; [exact H1|]. split; [exact H2|]. split; [exact H3|].
  exact (view_results_orphan_raises_AttributeError db _ _ H1 H2 H3).
Defined.

Lemma view_results_only_reads_tables (code : string) (db : database) :
  db_after (serve (PostResults code) db) = db
  /\ forallb is_select (trace (serve (PostResults code) db)) = true.
Proof.
  split; [apply results_db_after|].
  destruct code as [|c code]; [reflexivity|].
  destruct (String.eqb_spec (String c code) "072823") as [->|Hne].
  - unfold serve, in_session, handler. cbn [required_form].
    rewrite view_results_unfold.
    destruct (comprehension_log user_record user_record_log (users db)
                (mkSession db db [] [] 0%nat [EvSelect Users]))
      as (l & L & S).
    cbn [log] in L.
    destruct (comprehension _ _ _) as [[ys|e] s1]; cbn [snd trace] in *;
      now rewrite L.
  - now rewrite (view_results_wrong_code _ db).
Qed.

(** The results handler only reads: whatever the code and whatever the
    outcome, the tables are left as they were and every statement the
    session issued is a SELECT. *)
Theorem view_results_only_reads (code : string) (db : database) :
  db_after (serve (PostResults code) db) = db
  /\ forallb is_select (trace (serve (PostResults code) db)) = true.
Proof. exact (view_results_only_reads_tables code db). Qed.

Lemma entries_names (d : database) (us : list User.t)
      (data : list result_entry) :
  Forall2 (entry_for d) us data ->
  map re_name data = map User.name us
  /\ map (fun e => map ra_answer (re_answers e)) data
     = map (fun u => map Answer.answer_text (answers_of d u)) us.
Proof.
  induction 1 as [|u e us data [Hn Ha] _ [IH1 IH2]]; [now split|].
  cbn [map]. rewrite IH1, IH2, Hn. split; [reflexivity|]. f_equal.
  clear - Ha. induction Ha as [|a y rows ys (q & _ & ->) _ IH];
    [reflexivity|]. cbn. now rewrite IH.
Qed.

(** When the results view is returned it has one entry per user, in the
    order of the users table and bearing the users' names; each entry
    lists the texts of that user's answers, in the order of the answers
    table.  A user without answers gets an entry with no answers. *)
Theorem view_results_one_entry_per_user
        (db : database) (data : list result_entry) :
  result (serve (PostResults "072823") db)
  = Return (TemplateResponse "results.html" (CtxResults data)) ->
  List.length data = List.length (users db)
  /\ map re_name data = map User.name (users db)
  /\ map (fun e => map ra_answer (re_answers e)) data
     = map (fun u => map Answer.answer_text (answers_of db u)) (users db).
Proof.
  intros E.
  destruct (view_results_right_code db) as (_ & R & _).
  destruct (R _ E) as (data' & E' & HF). injection E' as <-.
  split; [symmetry; eapply Forall2_length; exact HF|].
  now apply entries_names.
Qed.

Lemma view_results_one_entry_per_user_witness :
  let db := mkDatabase [User.mk 1 "Ann"; User.mk 2 "Bob"] seeded_questions
              [Answer.mk 1 "x" 1 3; Answer.mk 2 "y" 1 1] in
  let data :=
    [mkResultEntry "Ann"
       [mkResultAnswer "What is your date of birth?" "x";
        mkResultAnswer "What is your email address?" "y"];
     mkResultEntry "Bob" []] in
  result (serve (PostResults "072823") db)
  = Return (TemplateResponse "results.html" (CtxResults data))
  /\ map re_name data = map User.name (users db).
Proof.
  intros db data.
  assert (H : result (serve (PostResults "072823") db)
              = Return (TemplateResponse "results.html" (CtxResults data)))
    by reflexivity.
  split; [exact H|].
  exact (proj1 (proj2 (view_results_one_entry_per_user db data H))).
Defined.

(** * Further properties of the submit and questions handlers *)

Lemma lookup_user_users (n : string) (d d' : database) :
  users d = users d' -> lookup_user n d = lookup_user n d'.
Proof. unfold lookup_user. now intros ->. Qed.

Lemma ensure_user_found (n : string) (d : database) (u : User.t) :
  lookup_user n d = Some u -> ensure_user n d = (u, d).
Proof. unfold ensure_user. now intros ->. Qed.

Lemma insert_form_answers_users (uid : Z) (items : form_data)
      (d : database) :
  users (insert_objects (form_answers uid items) d) = users d
  /\ questions (insert_objects (form_answers uid items) d) = questions d.
Proof.
  revert d. induction items as [|kv items IH]; intros d; cbn; [now split|].
  destruct (is_question_key kv); [|apply IH].
  destruct (item_qid kv); [|now split]. cbn. apply (IH (mkDatabase _ _ _)).
Qed.

Lemma submit_users (form : form_data) (name : string) (db : database) :
  form_get form "name" = Some name -> name <> EmptyString ->
  users (db_after (serve (PostSubmit form) db))
  = users (snd (ensure_user name db)).
Proof.
  intros Hname Hne.
  destruct (submit_cases form name db Hname Hne)
    as [(_ & _ & _ & ->)|[(_ & _ & ->)|(_ & _ & ->)]]; try reflexivity.
  apply insert_form_answers_users.
Qed.

(** An item of the mapping view has the key of a field of the form. *)
Lemma item_field (form : form_data) (kv : string * string) :
  In kv (form_items form) ->
  exists v, In (fst kv, v) form.
Proof.
  intros Hin.
  assert (Hk : In (fst kv) (map fst form)).
  { apply form_items_keys. now apply in_map. }
  apply in_map_iff in Hk. destruct Hk as ([k v] & E & Hin').
  cbn in E. subst k. now exists v.
Qed.

(** A request raises in three ways only: a submit raises [ValueError], on
    a field with a question key whose id segment [int] rejects; a submit
    raises [OverflowError], on a field with a question key whose parsed id
    does not fit the column; and the results handler called with the right
    code raises [AttributeError], on a listed answer whose question is
    missing.  No request fails on the unique names, on the reload of a
    created user, or on indexing the split key. *)
Theorem serve_raises_only_parse_overflow_or_missing_question
        (r : request) (db : database) (e : exn) :
  result (serve r db) = Raise e ->
  (exists form kv,
      r = PostSubmit form /\ e = ValueError
      /\ In kv form /\ is_question_key kv = true
      /\ item_qid kv = None)
  \/ (exists form kv qid,
         r = PostSubmit form /\ e = OverflowError
         /\ In kv form /\ is_question_key kv = true
         /\ item_qid kv = Some qid /\ in_int64 qid = false)
  \/ (r = PostResults "072823" /\ e = AttributeError
      /\ ~ listed_resolve db).
Proof.
  intros E. destruct r as [|name|form| |code].
  - discriminate E.
  - destruct name as [|c name]; [discriminate E|].
    destruct (get_questions_run (String c name) db) as (R & _);
      [discriminate|]. rewrite R in E. discriminate E.
  - destruct (Py.truthy (form_get form "name")) eqn:Ht.
    + destruct (form_get form "name") as [name|] eqn:Hname; [|discriminate].
      assert (Hne : name <> EmptyString) by (intros ->; discriminate).
      destruct (submit_cases form name db Hname Hne)
        as [(_ & _ & R & _)|[((kv & Hin & Hk & Hq) & R & _)
                            |((kv & qid & Hin & Hk & Hq & Hfit) & R & _)]];
        rewrite R in E; [discriminate| |]; injection E as <-.
      * left. destruct (item_field form kv Hin) as [v Hv].
        exists form, (fst kv, v). destruct kv as [k v0]. now repeat split.
      * right. left. destruct (item_field form kv Hin) as [v Hv].
        exists form, (fst kv, v), qid. destruct kv as [k v0].
        now repeat split.
    + rewrite (submit_answers_redirect form db Ht) in E. discriminate E.
  - discriminate E.
  - right. right. destruct code as [|c code]; [discriminate E|].
    destruct (String.eqb_spec (String c code) "072823") as [Ec|Hne].
    + rewrite Ec in *. split; [reflexivity|].
      split; [exact (view_results_raise_kind db e E)|].
      intros Hres. destruct (view_results_listed db Hres) as (data & R & _).
      rewrite R in E. discriminate E.
    + rewrite (view_results_wrong_code _ db) in E;
        [discriminate E | discriminate | exact Hne].
Qed.

Lemma serve_raises_only_parse_overflow_or_missing_question_witness :
  result (serve (PostSubmit [("name", "Ann");
                             ("question_9223372036854775808", "a")])
            empty_db)
  = Raise OverflowError
  /\ exists form kv qid,
       PostSubmit [("name", "Ann"); ("question_9223372036854775808", "a")]
       = PostSubmit form
       /\ In kv form /\ item_qid kv = Some qid /\ in_int64 qid = false.
Proof.
  assert (H : result (serve (PostSubmit
                               [("name", "Ann");
                                ("question_9223372036854775808", "a")])
                        empty_db) = Raise OverflowError)
    by (vm_compute; reflexivity).
  split; [exact H|].
  destruct (serve_raises_only_parse_overflow_or_missing_question _ _ _ H)
    as [(form & kv & _ & Ee & _)
       |[(form & kv & qid & Er & _ & Hin & _ & Hq & Hfit)|(Er & _)]];
    [discriminate Ee| |discriminate Er].
  exists form, kv, qid. split; [exact Er|]. split; [exact Hin|].
  split; [exact Hq | exact Hfit].
Defined.

(** Once a submit with a non-empty name has run, whether it completed or
    raised on a malformed key, the user exists: a following request for
    the questionnaire under that name finds the row and leaves the tables
    as they are. *)
Theorem questions_after_submit_creates_nothing
        (form : form_data) (name : string) (db : database) :
  form_get form "name" = Some name -> name <> EmptyString ->
  let db1 := db_after (serve (PostSubmit form) db) in
  db_after (serve (PostQuestions name) db1) = db1
  /\ lookup_user name db1 = Some (fst (ensure_user name db))
  /\ trace (serve (PostQuestions name) db1)
     = [EvSelect Users; EvSelect Questions].
Proof.
  intros Hname Hne db1.
  assert (Hl : lookup_user name db1 = Some (fst (ensure_user name db))).
  { rewrite <- (lookup_ensure_user name db).
    apply lookup_user_users. unfold db1. now apply submit_users. }
  destruct (get_questions_run name db1 Hne) as (_ & D & T).
  rewrite D, T. rewrite (ensure_user_found _ _ _ Hl).
  unfold session_with_user. rewrite Hl. now repeat split.
Qed.

Lemma questions_after_submit_creates_nothing_witness :
  let form := [("name", "Ann"); ("question_x", "a")] in
  let db1 := db_after (serve (PostSubmit form) empty_db) in
  form_get form "name" = Some "Ann"
  /\ users db1 = [User.mk 1 "Ann"]
  /\ db_after (serve (PostQuestions "Ann") db1) = db1.
Proof.
  intros form db1.
  assert (H1 : form_get form "name" = Some "Ann") by reflexivity.
  assert (H2 : "Ann" <> EmptyString) by discriminate.
  split; [exact H1|]. split; [reflexivity|].
  exact (proj1 (questions_after_submit_creates_nothing form "Ann" empty_db
                  H1 H2)).
Defined.

(** A submit under a non-empty name that [POST /questions] has served
    creates no user, whether it completes or raises: the users table stays
    as the questions request left it.  When its question keys all parse to
    ids of the signed 64-bit range it returns the thank-you page, and
    every answer it appends carries the id of the user the questions
    request found or created. *)
Theorem submit_after_questions_reuses_user
        (form : form_data) (name : string) (db : database) :
  form_get form "name" = Some name -> name <> EmptyString ->
  let db1 := db_after (serve (PostQuestions name) db) in
  let db2 := db_after (serve (PostSubmit form) db1) in
  users db2 = users db1
  /\ (all_parse form -> all_storable form ->
      result (serve (PostSubmit form) db1)
      = Return (TemplateResponse "thankyou.html" (CtxThankyou name))
      /\ exists rows,
           answers db2 = answers db ++ rows
           /\ forall row, In row rows ->
                          Answer.user_id row
                          = User.id (fst (ensure_user name db))).
Proof.
  intros Hname Hne db1 db2.
  destruct (get_questions_run name db Hne) as (_ & D & _). fold db1 in D.
  assert (Hl : lookup_user name db1 = Some (fst (ensure_user name db))).
  { rewrite D. apply lookup_ensure_user. }
  split.
  { unfold db2. rewrite (submit_users form name db1 Hname Hne).
    now rewrite (ensure_user_found _ _ _ Hl). }
  intros Hall Hst.
  destruct (submit_answers_rows form name db1 Hname Hne
              (all_parse_items form Hall) (all_storable_items form Hst))
    as (R & _ & _ & _ & _ & rows & A & _ & HF).
  fold db2 in A. rewrite (ensure_user_found _ _ _ Hl) in HF.
  cbn [fst snd] in HF.
  split; [exact R|]. exists rows.
  destruct (ensure_user_keeps name db) as (_ & A1 & _).
  rewrite <- D in A1. rewrite A1 in A.
  split; [exact A|].
  intros row Hrow.
  destruct (Forall2_pick_r _ _ _ row HF Hrow) as (kv & _ & Hid & _).
  exact Hid.
Qed.

Lemma submit_after_questions_reuses_user_witness :
  let form := [("name", "Ann"); ("question_1", "a")] in
  let db1 := db_after (serve (PostQuestions "Ann") empty_db) in
  form_get form "name" = Some "Ann"
  /\ "Ann" <> EmptyString
  /\ users (db_after (serve (PostSubmit form) db1)) = users db1.
Proof.
  intros form db1.
  assert (H1 : form_get form "name" = Some "Ann") by reflexivity.
  assert (H2 : "Ann" <> EmptyString) by discriminate.
  split; [exact H1|]. split; [exact H2|].
  exact (proj1 (submit_after_questions_reuses_user form "Ann" empty_db
                  H1 H2)).
Defined.

(** Answers are never replaced: when the question keys of a form all parse
    to ids of the signed 64-bit range, submitting the form twice under a
    non-empty name keeps the rows of the first submit and appends as many
    again (one per distinct question key each time), with the same
    question ids and texts, all under the id of the one user; the second
    submit adds no user. *)
Theorem submit_twice_keeps_both
        (form : form_data) (name : string) (db : database) :
  form_get form "name" = Some name -> name <> EmptyString ->
  all_parse form -> all_storable form ->
  let k := List.length (filter is_question_key (form_items form)) in
  let db1 := db_after (serve (PostSubmit form) db) in
  let db2 := db_after (serve (PostSubmit form) db1) in
  users db2 = users db1
  /\ exists rows1 rows2,
       answers db1 = answers db ++ rows1
       /\ answers db2 = answers db ++ rows1 ++ rows2
       /\ List.length rows1 = k /\ List.length rows2 = k
       /\ map Answer.answer_text rows2 = map Answer.answer_text rows1
       /\ map Answer.question_id rows2 = map Answer.question_id rows1
       /\ forall row, In row (rows1 ++ rows2) ->
                      Answer.user_id row
                      = User.id (fst (ensure_user name db)).
Proof.
  intros Hname Hne Hall0 Hst0 k db1 db2.
  pose proof (all_parse_items form Hall0) as Hall.
  pose proof (all_storable_items form Hst0) as Hst.
  destruct (submit_answers_rows form name db Hname Hne Hall Hst)
    as (_ & _ & _ & U1 & _ & rows1 & A1 & L1 & HF1).
  fold db1 in U1, A1.
  assert (Hl : lookup_user name db1 = Some (fst (ensure_user name db))).
  { rewrite <- (lookup_ensure_user name db).
    now apply lookup_user_users. }
  destruct (submit_answers_rows form name db1 Hname Hne Hall Hst)
    as (_ & _ & _ & U2 & _ & rows2 & A2 & L2 & HF2).
  fold db2 in U2, A2. rewrite (ensure_user_found _ _ _ Hl) in U2, HF2.
  cbn [fst snd] in U2, HF2.
  split; [exact U2|]. exists rows1, rows2.
  split; [exact A1|]. split; [now rewrite A2, A1, app_assoc|].
  split; [exact L1|]. split; [exact L2|].
  assert (G : forall fields r1 r2,
             Forall2 (fun kv a =>
                        Answer.user_id a = User.id (fst (ensure_user name db))
                        /\ item_qid kv = Some (Answer.question_id a)
                        /\ Answer.answer_text a = snd kv) fields r1 ->
             Forall2 (fun kv a =>
                        Answer.user_id a = User.id (fst (ensure_user name db))
                        /\ item_qid kv = Some (Answer.question_id a)
                        /\ Answer.answer_text a = snd kv) fields r2 ->
             map Answer.answer_text r2 = map Answer.answer_text r1
             /\ map Answer.question_id r2 = map Answer.question_id r1).
  { induction fields as [|kv fields IH]; intros r1 r2 F1 F2;
      inversion F1 as [|? a1 ? t1 (_ & Q1 & T1) F1']; subst;
      inversion F2 as [|? a2 ? t2 (_ & Q2 & T2) F2']; subst;
      [now split|].
    destruct (IH _ _ F1' F2') as [IHt IHq]. cbn [map].
    rewrite IHt, IHq, T1, T2. rewrite Q1 in Q2. injection Q2 as ->.
    now split. }
  destruct (G _ _ _ HF1 HF2) as [Gt Gq].
  split; [exact Gt|]. split; [exact Gq|].
  intros row Hrow. apply in_app_or in Hrow. destruct Hrow as [Hrow|Hrow].
  - destruct (Forall2_pick_r _ _ _ row HF1 Hrow) as (kv & _ & Hid & _).
    exact Hid.
  - destruct (Forall2_pick_r _ _ _ row HF2 Hrow) as (kv & _ & Hid & _).
    exact Hid.
Qed.

Lemma submit_twice_keeps_both_witness :
  let form := [("name", "Ann"); ("question_1", "a"); ("question_2", "b")] in
  let db1 := db_after (serve (PostSubmit form) empty_db) in
  let db2 := db_after (serve (PostSubmit form) db1) in
  form_get form "name" = Some "Ann"
  /\ all_parse form /\ all_storable form
  /\ users db2 = users db1
  /\ List.length (answers db2) = 4%nat.
Proof.
  intros form db1 db2.
  assert (H1 : form_get form "name" = Some "Ann") by reflexivity.
  assert (H2 : "Ann" <> EmptyString) by discriminate.
  assert (H3 : all_parse form).
  { intros kv [<-|[<-|[<-|[]]]] Hk; vm_compute in Hk |- *; discriminate. }
  assert (H4 : all_storable form).
  { intros kv qid [<-|[<-|[<-|[]]]] Hk Hq; vm_compute in Hk, Hq;
      [discriminate Hk| |]; injection Hq as <-; reflexivity. }
  split; [exact H1|]. split; [exact H3|]. split; [exact H4|].
  destruct (submit_twice_keeps_both form "Ann" empty_db H1 H2 H3 H4)
    as (U & rows1 & rows2 & _ & A2 & L1 & L2 & _).
  split; [exact U|]. fold db1 db2 in A2. rewrite A2.
  cbn [answers empty_db app]. rewrite length_app, L1, L2. reflexivity.
Defined.

(** * The questions table under the handlers, and restarts *)

(** No handler writes the questions table: after any sequence of requests
    it is what it was, and the questions handler renders exactly these
    questions, in table order, under any non-empty submitted name. *)
Theorem handlers_never_write_questions
        (rs : list request) (db : database) :
  questions (serve_all rs db) = questions db
  /\ forall name, name <> EmptyString ->
       result (serve (PostQuestions name) (serve_all rs db))
       = Return (TemplateResponse "questions.html"
                   (CtxQuestions name (questions db))).
Proof.
  destruct (serve_all_extends rs db) as [(_ & Q & _) _].
  split; [exact Q|]. intros name Hne.
  destruct (get_questions_run name (serve_all rs db) Hne) as (R & _).
  now rewrite R, Q.
Qed.

(** A restart leaves the tables as they are: once the seed routine has
    run, whatever requests are served afterwards, running the seed routine
    again gives back the very same database, the questions with the ids
    they had, so that stored answers keep pointing at their questions. *)
Theorem restart_keeps_tables (rs : list request) (db : database) :
  let d := serve_all rs (db_after (startup db)) in
  result (startup d) = Return tt /\ db_after (startup d) = d.
Proof.
  intros d. rewrite startup_run. cbn [result db_after].
  split; [reflexivity|].
  destruct (serve_all_extends rs (db_after (startup db))) as [(_ & Q & _) _].
  fold d in Q. rewrite startup_run in Q. cbn [db_after questions] in Q.
  rewrite <- Q. now destruct d.
Qed.

(** * Primary keys *)

Lemma NoDup_snoc_fresh (ids : list Z) : NoDup ids -> NoDup (ids ++ [next_id ids]).
Proof. intros H. apply NoDup_snoc; [exact H | apply next_id_fresh]. Qed.

Lemma ensure_user_ids_unique (name : string) (d : database) :
  ids_unique d -> ids_unique (snd (ensure_user name d)).
Proof.
  intros (Hu & Hq & Ha). unfold ensure_user.
  destruct (lookup_user name d); unfold ids_unique; cbn;
    [now repeat split|].
  split; [|split; [exact Hq | exact Ha]].
  rewrite map_app. cbn. now apply NoDup_snoc_fresh.
Qed.

Lemma insert_objects_ids_unique (objs : list transient) (d : database) :
  ids_unique d -> ids_unique (insert_objects objs d).
Proof.
  revert d. induction objs as [|o objs IH]; intros d (Hu & Hq & Ha);
    cbn; [now repeat split|].
  destruct o as [n|text|uid qid text]; [now repeat split| |]; apply IH;
    unfold ids_unique; cbn.
  - split; [exact Hu|]. split; [|exact Ha].
    rewrite map_app. cbn. now apply NoDup_snoc_fresh.
  - split; [exact Hu|]. split; [exact Hq|].
    unfold append_answer. rewrite map_app. cbn. now apply NoDup_snoc_fresh.
Qed.

Lemma serve_ids_unique (r : request) (db : database) :
  ids_unique db -> ids_unique (db_after (serve r db)).
Proof.
  intros H. destruct r as [|name|form| |code].
  - exact H.
  - destruct (questions_db_after name db) as [D|D]; rewrite D;
      [exact H | now apply ensure_user_ids_unique].
  - destruct (Py.truthy (form_get form "name")) eqn:Ht.
    + destruct (form_get form "name") as [name|] eqn:Hname; [|discriminate].
      assert (Hne : name <> EmptyString) by (intros ->; discriminate).
      destruct (submit_cases form name db Hname Hne)
        as [(_ & _ & _ & ->)|[(_ & _ & ->)|(_ & _ & ->)]].
      * apply insert_objects_ids_unique. now apply ensure_user_ids_unique.
      * now apply ensure_user_ids_unique.
      * now apply ensure_user_ids_unique.
    + now rewrite (submit_answers_redirect form db Ht).
  - exact H.
  - rewrite results_db_after. exact H.
Qed.

(** Every database the program can be in, from the created tables through
    seed runs and requests, has pairwise distinct ids in each of its three
    tables. *)
Theorem reachable_ids_unique (d : database) : reachable d -> ids_unique d.
Proof.
  induction 1 as [|d Hd IH|d r Hd IH].
  - repeat split; constructor.
  - rewrite startup_run. destruct IH as (Hu & _ & Ha).
    split; [exact Hu|]. split; [|exact Ha].
    cbn. repeat (constructor; [cbn; intuition discriminate|]). constructor.
  - now apply serve_ids_unique.
Qed.

Lemma reachable_ids_unique_witness :
  let d :=
    db_after (serve (PostSubmit [("name", "Ann"); ("question_1", "a")])
                (db_after (startup empty_db))) in
  reachable d /\ ids_unique d.
Proof.
  intros d.
  assert (H : reachable d).
  { apply reach_serve. apply reach_startup. apply reach_created. }
  split; [exact H | exact (reachable_ids_unique d H)].
Defined.

Lemma NoDup_map_inj {A B} (f : A -> B) (l : list A) (x y : A) :
  NoDup (map f l) -> In x l -> In y l -> f x = f y -> x = y.
Proof.
  induction l as [|z l IH]; cbn; intros Hnd Hx Hy E; [destruct Hx|].
  inversion Hnd as [|? ? Hz Hnd']; subst.
  destruct Hx as [->|Hx], Hy as [->|Hy].
  - reflexivity.
  - exfalso. apply Hz. rewrite E. now apply in_map.
  - exfalso. apply Hz. rewrite <- E. now apply in_map.
  - now apply IH.
Qed.

(** A submit touches the answers of no other user: with distinct user ids,
    after a completed submit under [name] every user with another name
    has exactly the answers it had. *)
Theorem submit_leaves_other_users_answers
        (form : form_data) (name : string) (db : database)
        (other : User.t) :
  ids_unique db ->
  form_get form "name" = Some name -> name <> EmptyString ->
  all_parse (form_items form) ->
  let db1 := db_after (serve (PostSubmit form) db) in
  In other (users db1) -> User.name other <> name ->
  answers_of db1 other = answers_of db other.
Proof.
  intros Hids Hname Hne Hall db1 Hother Hdiff.
  pose proof (serve_ids_unique (PostSubmit form) db Hids) as (Hu1 & _).
  fold db1 in Hu1.
  assert (Hkept : db1 = snd (ensure_user name db) ->
                  answers_of db1 other = answers_of db other).
  { intros D. unfold answers_of. rewrite D.
    now rewrite (proj1 (proj2 (ensure_user_keeps name db))). }
  destruct (submit_cases form name db Hname Hne)
    as [(_ & Hst & _)|[(_ & _ & D)|(_ & _ & D)]];
    [|exact (Hkept D) | exact (Hkept D)].
  destruct (submit_answers_rows form name db Hname Hne Hall Hst)
    as (_ & Hun & Hu & _ & _ & rows & A & _ & HF).
  fold db1 in Hu, A.
  unfold answers_of. rewrite A, filter_app.
  rewrite <- (app_nil_r (filter _ (answers db))) at 2. f_equal.
  assert (G : forall row, In row rows ->
                          (Answer.user_id row =? User.id other) = false).
  { intros row Hrow.
    destruct (Forall2_pick_r _ _ _ row HF Hrow) as (kv & _ & Hid & _).
    rewrite Hid. apply Z.eqb_neq. intros E. apply Hdiff.
    rewrite (NoDup_map_inj User.id (users db1) other
               (fst (ensure_user name db)) Hu1 Hother Hu (eq_sym E)).
    exact Hun. }
  clear - G. induction rows as [|row rows IH]; [reflexivity|].
  cbn. rewrite (G row (or_introl eq_refl)). apply IH.
  intros r Hr. apply G. now right.
Qed.

Lemma submit_leaves_other_users_answers_witness :
  let db := mkDatabase [User.mk 1 "Ann"; User.mk 2 "Bob"] seeded_questions
              [Answer.mk 1 "x" 1 3] in
  let form := [("name", "Bob"); ("question_1", "a")] in
  ids_unique db
  /\ form_get form "name" = Some "Bob"
  /\ all_parse (form_items form)
  /\ answers_of (db_after (serve (PostSubmit form) db)) (User.mk 1 "Ann")
     = answers_of db (User.mk 1 "Ann").
Proof.
  intros db form.
  assert (H0 : ids_unique db).
  { repeat split; cbn;
      repeat (constructor; [cbn; intuition discriminate|]); constructor. }
  assert (H1 : form_get form "name" = Some "Bob") by reflexivity.
  assert (H2 : "Bob" <> EmptyString) by discriminate.
  assert (H3 : all_parse (form_items form)).
  { intros kv [<-|[<-|[]]] Hk; vm_compute in Hk |- *; discriminate. }
  split; [exact H0|]. split; [exact H1|]. split; [exact H3|].
  apply (submit_leaves_other_users_answers form "Bob" db (User.mk 1 "Ann")
           H0 H1 H2 H3).
  - now left.
  - discriminate.
Defined.

(** * Keeping the results view available *)

Lemma question_exists_found (qid : Z) (d : database) (a : Answer.t) :
  question_exists qid d -> Answer.question_id a = qid ->
  question_of d a <> None.
Proof.
  unfold question_exists, question_of. intros Hin Hq Hf.
  apply in_map_iff in Hin. destruct Hin as (q & Hid & Hq_in).
  pose proof (find_none _ _ Hf q Hq_in) as E. cbn in E.
  rewrite Hid, Hq, Z.eqb_refl in E. discriminate E.
Qed.

Lemma question_of_same (d d' : database) (a : Answer.t) :
  questions d' = questions d -> question_of d' a = question_of d a.
Proof. unfold question_of. now intros ->. Qed.

Lemma serve_keeps_resolving (r : request) (db : database) :
  questions_resolve db -> addresses_existing db r ->
  questions_resolve (db_after (serve r db)).
Proof.
  intros Hres Haddr.
  destruct (serve_extends r db) as [(_ & Q & _) _].
  intros a Ha. rewrite (question_of_same db _ a Q).
  destruct r as [|name|form| |code].
  - now apply Hres.
  - destruct (questions_db_after name db) as [D|D]; rewrite D in Ha;
      [now apply Hres|].
    destruct (ensure_user_keeps name db) as (_ & A & _). rewrite A in Ha.
    now apply Hres.
  - cbn in Haddr.
    destruct (Py.truthy (form_get form "name")) eqn:Ht.
    + destruct (form_get form "name") as [name|] eqn:Hname; [|discriminate].
      assert (Hne : name <> EmptyString) by (intros ->; discriminate).
      destruct (ensure_user_keeps name db) as (_ & A & _).
      destruct (submit_cases form name db Hname Hne)
        as [(Hall & _ & _ & D)|[(_ & _ & D)|(_ & _ & D)]]; rewrite D in Ha.
      * destruct (insert_form_answers
                    (User.id (fst (ensure_user name db))) (form_items form)
                    (snd (ensure_user name db)) Hall) as (rows & E & HF).
        rewrite E in Ha. cbn [answers] in Ha. rewrite A in Ha.
        apply in_app_or in Ha. destruct Ha as [Ha|Ha]; [now apply Hres|].
        destruct (Forall2_pick_r _ _ _ a HF Ha) as (kv & Hkv & _ & Hq & _).
        apply filter_In in Hkv. destruct Hkv as [Hin Hk].
        exact (question_exists_found _ db a (Haddr kv _ Hin Hk Hq) eq_refl).
      * rewrite A in Ha. now apply Hres.
      * rewrite A in Ha. now apply Hres.
    + rewrite (submit_answers_redirect form db Ht) in Ha. now apply Hres.
  - now apply Hres.
  - destruct (view_results_only_reads_tables code db) as [D _].
    rewrite D in Ha. now apply Hres.
Qed.

Lemma addresses_existing_same (d d' : database) (r : request) :
  questions d' = questions d ->
  addresses_existing d r -> addresses_existing d' r.
Proof.
  intros Q. destruct r; cbn; auto. unfold question_exists. now rewrite Q.
Qed.

(** As long as submitted forms name only existing questions, the results
    view stays available: from tables in which every answer's question
    exists, after any sequence of requests whose question keys all parse
    to ids of existing questions, every answer's question still exists and
    the results handler called with the right code returns the view. *)
Theorem results_available_while_forms_name_questions
        (rs : list request) (db : database) :
  questions_resolve db -> Forall (addresses_existing db) rs ->
  questions_resolve (serve_all rs db)
  /\ exists data,
       result (serve (PostResults "072823") (serve_all rs db))
       = Return (TemplateResponse "results.html" (CtxResults data)).
Proof.
  intros Hres Hall.
  assert (G : questions_resolve (serve_all rs db)).
  { revert db Hres Hall. induction rs as [|r rs IH]; intros db Hres Hall;
      [exact Hres|].
    inversion Hall as [|? ? Hr Hrs]; subst. cbn [serve_all fold_left].
    apply IH; [now apply serve_keeps_resolving|].
    destruct (serve_extends r db) as [(_ & Q & _) _].
    eapply Forall_impl; [|exact Hrs].
    intros r'. now apply addresses_existing_same. }
  split; [exact G|].
  destruct (view_results_right_code (serve_all rs db)) as (_ & _ & T).
  exact (T G).
Qed.

Lemma results_available_while_forms_name_questions_witness :
  let db := db_after (startup empty_db) in
  let rs := [PostQuestions "Ann";
             PostSubmit [("name", "Ann"); ("question_10", "yes")]] in
  questions_resolve db
  /\ Forall (addresses_existing db) rs
  /\ exists data,
       result (serve (PostResults "072823") (serve_all rs db))
       = Return (TemplateResponse "results.html" (CtxResults data)).
Proof.
  intros db rs.
  assert (H1 : questions_resolve db).
  { unfold db. rewrite startup_run. intros a Ha. destruct Ha. }
  assert (H2 : Forall (addresses_existing db) rs).
  { constructor; [exact I|]. constructor; [|constructor].
    intros kv qid [<-|[<-|[]]] Hk Hq; vm_compute in Hk, Hq;
      [discriminate Hk|].
    injection Hq as <-. unfold db. rewrite startup_run.
    vm_compute. intuition. }
  split; [exact H1|]. split; [exact H2|].
  exact (proj2 (results_available_while_forms_name_questions rs db H1 H2)).
Defined.

(** * Edge cases of the submit handler *)

Lemma form_answers_none (uid : Z) (items : form_data) :
  (forall kv, In kv items -> is_question_key kv = false) ->
  form_answers uid items = [].
Proof.
  induction items as [|kv items IH]; intros H; [reflexivity|]. cbn.
  rewrite (H kv (or_introl eq_refl)). apply IH.
  intros kv' Hin. apply H. now right.
Qed.

(** A submit with a non-empty name and no question field completes: it
    returns the thank-you page, stores no answer, and still creates the
    user when the name is new. *)
Theorem submit_without_question_fields
        (form : form_data) (name : string) (db : database) :
  form_get form "name" = Some name -> name <> EmptyString ->
  (forall kv, In kv (form_items form) -> is_question_key kv = false) ->
  result (serve (PostSubmit form) db)
  = Return (TemplateResponse "thankyou.html" (CtxThankyou name))
  /\ db_after (serve (PostSubmit form) db) = snd (ensure_user name db)
  /\ answers (db_after (serve (PostSubmit form) db)) = answers db
  /\ lookup_user name (db_after (serve (PostSubmit form) db))
     = Some (fst (ensure_user name db)).
Proof.
  intros Hname Hne Hnone.
  assert (Hall : all_parse (form_items form)).
  { intros kv Hin Hk. rewrite (Hnone kv Hin) in Hk. discriminate Hk. }
  assert (Hst : all_storable (form_items form)).
  { intros kv qid Hin Hk. rewrite (Hnone kv Hin) in Hk. discriminate Hk. }
  destruct (submit_answers_run form name db Hname Hne Hall Hst) as [R D].
  rewrite (form_answers_none _ _ Hnone) in D. cbn [insert_objects] in D.
  rewrite D. split; [exact R|]. split; [reflexivity|].
  split; [apply ensure_user_keeps | apply lookup_ensure_user].
Qed.

Lemma submit_without_question_fields_witness :
  let form := [("name", "Ann"); ("comment", "hello")] in
  form_get form "name" = Some "Ann"
  /\ (forall kv, In kv (form_items form) -> is_question_key kv = false)
  /\ db_after (serve (PostSubmit form) empty_db)
     = mkDatabase [User.mk 1 "Ann"] [] [].
Proof.
  intros form.
  assert (H1 : form_get form "name" = Some "Ann") by reflexivity.
  assert (H2 : "Ann" <> EmptyString) by discriminate.
  assert (H3 : forall kv, In kv (form_items form) ->
                          is_question_key kv = false).
  { intros kv [<-|[<-|[]]]; reflexivity. }
  split; [exact H1|]. split; [exact H3|].
  rewrite (proj1 (proj2 (submit_without_question_fields form "Ann" empty_db
                           H1 H2 H3))).
  reflexivity.
Defined.

(** * The first submission of a new user, read back *)

Lemma filter_all {A} (p : A -> bool) (l : list A) :
  (forall x, In x l -> p x = true) -> filter p l = l.
Proof.
  induction l as [|x l IH]; intros H; [reflexivity|]. cbn.
  rewrite (H x (or_introl eq_refl)). f_equal. apply IH.
  intros y Hy. apply H. now right.
Qed.

Lemma filter_none {A} (p : A -> bool) (l : list A) :
  (forall x, In x l -> p x = false) -> filter p l = [].
Proof.
  induction l as [|x l IH]; intros H; [reflexivity|]. cbn.
  rewrite (H x (or_introl eq_refl)). apply IH.
  intros y Hy. apply H. now right.
Qed.

Lemma shown_answers (d : database) (rows : list Answer.t)
      (ys : list result_answer) :
  Forall2 (shows d) rows ys ->
  map ra_answer ys = map Answer.answer_text rows.
Proof.
  induction 1 as [|a y rows ys (q & _ & ->) _ IH]; [reflexivity|].
  cbn. now rewrite IH.
Qed.

(** Full round trip for a new user: when the name is that of no user and
    every answer in the tables belongs to a user, a submit that completes
    (question keys pairwise distinct, all parsing to ids of the signed
    64-bit range) followed by a results request that returns the view
    shows the new user as the last entry, under the submitted name, with
    exactly the values of the form's question fields, unchanged and in the
    form's order. *)
Theorem new_user_submission_shown_in_order
        (form : form_data) (name : string) (db : database)
        (data : list result_entry) :
  answers_owned db -> lookup_user name db = None ->
  form_get form "name" = Some name -> name <> EmptyString ->
  all_parse form -> all_storable form ->
  NoDup (map fst (filter is_question_key form)) ->
  let db1 := db_after (serve (PostSubmit form) db) in
  result (serve (PostResults "072823") db1)
  = Return (TemplateResponse "results.html" (CtxResults data)) ->
  exists before e,
    data = before ++ [e]
    /\ List.length before = List.length (users db)
    /\ re_name e = name
    /\ map ra_answer (re_answers e)
       = map snd (filter is_question_key form).
Proof.
  intros Hown Hnew Hname Hne Hall Hst Hnd db1 E.
  set (u := User.mk (next_id (map User.id (users db))) name).
  assert (Heu : ensure_user name db
                = (u, mkDatabase (users db ++ [u]) (questions db)
                        (answers db))).
  { unfold ensure_user. now rewrite Hnew. }
  destruct (submit_answers_rows form name db Hname Hne
              (all_parse_items form Hall) (all_storable_items form Hst))
    as (_ & _ & _ & U & _ & rows & A & _ & HF).
  rewrite (question_fields_distinct form Hnd) in HF.
  fold db1 in U, A. rewrite Heu in U, HF. cbn [fst snd users] in U, HF.
  destruct (view_results_right_code db1) as (_ & R & _).
  destruct (R _ E) as (data' & E' & HD). injection E' as <-.
  rewrite U in HD. apply Forall2_app_inv_l in HD.
  destruct HD as (before & last & HB & HL & ->).
  inversion HL as [|? e ? rest [Hn Ha] HL']; subst. inversion HL'; subst.
  exists before, e. split; [reflexivity|].
  split; [symmetry; eapply Forall2_length; exact HB|].
  split; [exact Hn|].
  rewrite (shown_answers _ _ _ Ha). unfold answers_of.
  rewrite A, filter_app, filter_none, filter_all; cbn [app].
  - clear - HF. induction HF as [|kv a fields rows (_ & _ & Ht) _ IH];
      [reflexivity|]. cbn. now rewrite IH, Ht.
  - intros a Hin.
    destruct (Forall2_pick_r _ _ _ a HF Hin) as (kv & _ & Hid & _).
    rewrite Hid. apply Z.eqb_refl.
  - intros a Hin. apply Z.eqb_neq. intros Eid.
    apply (next_id_fresh (map User.id (users db))).
    cbn [User.id u] in Eid. rewrite <- Eid. now apply Hown.
Qed.

Lemma new_user_submission_shown_in_order_witness :
  let db := mkDatabase [User.mk 1 "Ann"] seeded_questions
              [Answer.mk 1 "x" 1 3] in
  let form := [("name", "Bob"); ("question_2", " b "); ("other", "o");
               ("question_1", "")] in
  let data :=
    [mkResultEntry "Ann" [mkResultAnswer "What is your date of birth?" "x"];
     mkResultEntry "Bob"
       [mkResultAnswer "What is your cell-phone number?" " b ";
        mkResultAnswer "What is your email address?" ""]] in
  answers_owned db /\ lookup_user "Bob" db = None
  /\ all_parse form /\ all_storable form
  /\ NoDup (map fst (filter is_question_key form))
  /\ result (serve (PostResults "072823")
               (db_after (serve (PostSubmit form) db)))
     = Return (TemplateResponse "results.html" (CtxResults data))
  /\ exists before e,
       data = before ++ [e]
       /\ map ra_answer (re_answers e)
          = map snd (filter is_question_key form).
Proof.
  intros db form data.
  assert (H4 : all_parse form).
  { intros kv [<-|[<-|[<-|[<-|[]]]]] Hk; vm_compute in Hk |- *;
      discriminate. }
  assert (H6 : all_storable form).
  { intros kv qid [<-|[<-|[<-|[<-|[]]]]] Hk Hq; vm_compute in Hk, Hq;
      [discriminate Hk| |discriminate Hk|]; injection Hq as <-;
      reflexivity. }
  assert (H7 : NoDup (map fst (filter is_question_key form))).
  { cbn. constructor; [intros [E|[]]; discriminate E|].
    constructor; [intros []|constructor]. }
  assert (H0 : answers_owned db).
  { intros a [<-|[]]. now left. }
  assert (H1 : lookup_user "Bob" db = None) by reflexivity.
  assert (H2 : form_get form "name" = Some "Bob") by reflexivity.
  assert (H3 : "Bob" <> EmptyString) by discriminate.
  assert (H5 : result (serve (PostResults "072823")
                         (db_after (serve (PostSubmit form) db)))
               = Return (TemplateResponse "results.html" (CtxResults data)))
    by reflexivity.
  split; [exact H0|]. split; [exact H1|]. split; [exact H4|].
  split; [exact H6|]. split; [exact H7|]. split; [exact H5|].
  destruct (new_user_submission_shown_in_order form "Bob" db data
              H0 H1 H2 H3 H4 H6 H7 H5) as (before & e & Ed & _ & _ & Ea).
  exists before, e. now split.
Defined.

(** * The ids of the seeded questions *)

(** After a seed run, whatever the tables held before, the ids of the
    questions are exactly 1 to 10: an answer's question exists exactly
    when its question id lies in that range. *)
Theorem seeded_question_ids (db : database) (a : Answer.t) :
  (question_exists (Answer.question_id a) (db_after (startup db))
   <-> 1 <= Answer.question_id a <= 10)
  /\ (question_of (db_after (startup db)) a <> None
      <-> 1 <= Answer.question_id a <= 10).
Proof.
  rewrite startup_run. cbn [db_after].
  assert (G : question_exists (Answer.question_id a)
                (mkDatabase (users db) seeded_questions (answers db))
              <-> 1 <= Answer.question_id a <= 10).
  { unfold question_exists. cbn. split.
    - intros H. repeat (destruct H as [<-|H]; [lia|]). destruct H.
    - intros H.
      assert (C : Answer.question_id a = 1 \/ Answer.question_id a = 2
                  \/ Answer.question_id a = 3 \/ Answer.question_id a = 4
                  \/ Answer.question_id a = 5 \/ Answer.question_id a = 6
                  \/ Answer.question_id a = 7 \/ Answer.question_id a = 8
                  \/ Answer.question_id a = 9 \/ Answer.question_id a = 10)
        by lia.
      intuition. }
  split; [exact G|]. rewrite <- G. split.
  - intros H. unfold question_of in H.
    destruct (find _ _) as [q|] eqn:Hf; [|contradiction].
    apply find_some in Hf. destruct Hf as [Hin Hid].
    apply Z.eqb_eq in Hid. unfold question_exists. rewrite <- Hid.
    now apply in_map.
  - intros H. now apply (question_exists_found (Answer.question_id a)).
Qed.
